(** * MetroGame: stations and lines over a DEM surface

    A shallow embedding of the station/line editor of the repository:
    - [src/gui.py] (with [src/station_utils.py], [src/line_utils.py],
      [src/dem_utils.py]): the table-driven editor started by [src/main.py];
    - [src/mountain.py]: the self-contained, id-keyed variant.

    Conventions of the embedding.
    - Python [float] values are exact rationals ([Q]); Python [int] values are [Z].
    - Python [str] values are [string] (ASCII text).
    - A Python [dict] is an association list in insertion order.
    - [pv.Spline(points, n)] and the label actors are symbolic values that
      record the arguments they were built from.
    - A raised exception is a value of [exn]; a handler returns the state it
      left behind together with how it ended.
    - A handler is embedded as its text reads.  What the user does is an
      [event]: a pick, a selection, an accepted or rejected dialog, a text
      typed into a cell (stored by Qt before the [cellChanged] slot runs).
      The [cellChanged] signals that a handler's own [setItem] calls emit
      while signals are not blocked re-enter the cell slots; these runs are
      left out.  The step lemmas on ids hold from every state, so they cover
      such re-entrant runs as well.
    - [save_data] changes nothing in the store and is left out; the file
      and the image that [import_data] and [load_new_dem] read are inputs. *)

From Stdlib Require Import List String Ascii ZArith QArith Qabs Qround Lia Lqa Bool Arith.
From Stdlib Require Finite.
Import ListNotations.

Local Open Scope string_scope.
Local Open Scope Z_scope.

(** ** Exceptions and results *)

Inductive exn : Type :=
| ValueError
| KeyError
| IndexError
| AttributeError.

Inductive result (A : Type) : Type :=
| Ok (a : A)
| Raise (e : exn).

Arguments Ok {A} a.
Arguments Raise {A} e.

Definition bind {A B : Type} (r : result A) (k : A -> result B) : result B :=
  match r with
  | Ok a => k a
  | Raise e => Raise e
  end.

Notation "x <- r ;; k" := (bind r (fun x => k))
  (at level 61, r at next level, right associativity).

(** ** Python built-ins on text *)

Module Py.

(** ASCII characters that [str.strip()] and [int()] treat as blank. *)
Definition is_space (c : ascii) : bool :=
  let n := nat_of_ascii c in
  ((n =? 32) || ((9 <=? n) && (n <=? 13)) || ((28 <=? n) && (n <=? 31)))%nat.

Fixpoint lstrip_by (p : ascii -> bool) (s : string) : string :=
  match s with
  | EmptyString => EmptyString
  | String c s' => if p c then lstrip_by p s' else s
  end.

Fixpoint rev_onto (s acc : string) : string :=
  match s with
  | EmptyString => acc
  | String c s' => rev_onto s' (String c acc)
  end.

Definition rev (s : string) : string := rev_onto s EmptyString.

Definition rstrip_by (p : ascii -> bool) (s : string) : string :=
  rev (lstrip_by p (rev s)).

(** [s.strip()] *)
Definition strip (s : string) : string := rstrip_by is_space (lstrip_by is_space s).

(** [s.lstrip(c)] for a one-character argument: every leading [c] goes. *)
Definition lstrip_char (c : ascii) (s : string) : string :=
  lstrip_by (Ascii.eqb c) s.

(** [s.split(sep)] for a one-character separator. *)
Fixpoint split (sep : ascii) (s : string) : list string :=
  match s with
  | EmptyString => [EmptyString]
  | String c s' =>
      if Ascii.eqb c sep then EmptyString :: split sep s'
      else match split sep s' with
           | h :: t => String c h :: t
           | [] => [String c EmptyString]
           end
  end.

(** [sep.join(parts)] *)
Definition join (sep : string) (parts : list string) : string :=
  String.concat sep parts.

(** [bool(s)]: a string is true when it is not empty. *)
Definition truthy (s : string) : bool :=
  match s with
  | EmptyString => false
  | String _ _ => true
  end.

Definition digit_val (c : ascii) : option Z :=
  let n := Z.of_nat (nat_of_ascii c) in
  if (48 <=? n) && (n <=? 57) then Some (n - 48) else None.

Definition hex_val (c : ascii) : option Z :=
  let n := Z.of_nat (nat_of_ascii c) in
  if (48 <=? n) && (n <=? 57) then Some (n - 48)
  else if (65 <=? n) && (n <=? 70) then Some (n - 55)
  else if (97 <=? n) && (n <=? 102) then Some (n - 87)
  else None.

Definition is_digit (c : ascii) : bool :=
  match digit_val c with Some _ => true | None => false end.

Fixpoint all_chars (p : ascii -> bool) (s : string) : bool :=
  match s with
  | EmptyString => true
  | String c s' => p c && all_chars p s'
  end.

(** [s.isdigit()] *)
Definition isdigit (s : string) : bool := truthy s && all_chars is_digit s.

(** The digits of an integer literal: digits of the base, single
    underscores allowed between two digits. *)
Fixpoint digits_of (val : ascii -> option Z) (base : Z) (s : string)
         (acc : Z) (after_digit : bool) : option Z :=
  match s with
  | EmptyString => if after_digit then Some acc else None
  | String c s' =>
      if Ascii.eqb c "_" then
        if after_digit then digits_of val base s' acc false else None
      else
        match val c with
        | Some d => digits_of val base s' (base * acc + d) true
        | None => None
        end
  end.

Definition split_sign (s : string) : bool * string :=
  match s with
  | String c s' =>
      if Ascii.eqb c "-" then (true, s')
      else if Ascii.eqb c "+" then (false, s')
      else (false, s)
  | EmptyString => (false, s)
  end.

Definition apply_sign (neg : bool) (r : option Z) : result Z :=
  match r with
  | Some v => Ok (if neg then - v else v)
  | None => Raise ValueError
  end.

(** [int(s)] on text: blanks stripped, an optional sign, decimal digits. *)
Definition int10 (s : string) : result Z :=
  let '(neg, body) := split_sign (strip s) in
  apply_sign neg (digits_of digit_val 10 body 0 false).

(** [int(s, 16)]: as [int10], with an optional [0x] prefix and hex digits. *)
Definition int16 (s : string) : result Z :=
  let '(neg, body) := split_sign (strip s) in
  let digits :=
    match body with
    | String z (String x rest) =>
        if Ascii.eqb z "0" && (Ascii.eqb x "x" || Ascii.eqb x "X") then
          match rest with
          | String u rest' => if Ascii.eqb u "_" then rest' else rest
          | EmptyString => rest
          end
        else body
    | _ => body
    end in
  apply_sign neg (digits_of hex_val 16 digits 0 false).

(** [int(q)] on a float: truncation towards zero. *)
Definition int_of_float (q : Q) : Z := Z.quot (Qnum q) (Z.pos (Qden q)).

Definition dec_digit (d : Z) : ascii := ascii_of_nat (Z.to_nat (48 + d)).

Definition hex_digit (d : Z) : ascii :=
  ascii_of_nat (Z.to_nat (if d <? 10 then 48 + d else 55 + d)).

(** Digits of a natural number [n] in [base], most significant first. *)
Fixpoint digits_onto (digit : Z -> ascii) (base : Z) (fuel : nat) (n : Z)
         (acc : string) : string :=
  let acc' := String (digit (n mod base)) acc in
  match fuel with
  | O => acc'
  | S fuel' =>
      if n / base =? 0 then acc' else digits_onto digit base fuel' (n / base) acc'
  end.

Definition nat_digits (digit : Z -> ascii) (base : Z) (n : Z) : string :=
  digits_onto digit base (Z.to_nat (Z.log2 n)) n EmptyString.

(** [str(n)] on an integer. *)
Definition str (n : Z) : string :=
  if n <? 0 then String "-" (nat_digits dec_digit 10 (- n))
  else nat_digits dec_digit 10 n.

Fixpoint zeros (k : nat) (s : string) : string :=
  match k with
  | O => s
  | S k' => String "0" (zeros k' s)
  end.

(** [f"{n:02X}"]: upper-case hex digits, zero-filled to two characters,
    the sign counted in the width. *)
Definition format_02X (n : Z) : string :=
  if n <? 0 then
    let d := nat_digits hex_digit 16 (- n) in
    String "-" (zeros (1 - String.length d) d)
  else
    let d := nat_digits hex_digit 16 n in
    zeros (2 - String.length d) d.

End Py.

(** ** Colours ([src/gui.py], lines 12-23) *)

Definition rgb : Type := (Q * Q * Q)%type.

Definition rgb_to_hex (c : rgb) : string :=
  let '(r, g, b) := c in
  String "#" (Py.format_02X (Py.int_of_float (r * 255))
              ++ Py.format_02X (Py.int_of_float (g * 255))
              ++ Py.format_02X (Py.int_of_float (b * 255))).

Definition channel (n : Z) : Q := inject_Z n / 255.

Definition hex_to_rgb (hex_str : string) : result rgb :=
  let hex_str := Py.lstrip_char "#" hex_str in
  if negb (String.length hex_str =? 6)%nat then Ok (0%Q, 1%Q, 0%Q)
  else
    r <- Py.int16 (substring 0 2 hex_str) ;;
    g <- Py.int16 (substring 2 2 hex_str) ;;
    b <- Py.int16 (substring 4 2 hex_str) ;;
    Ok (channel r, channel g, channel b).


(** ** Floats as text *)

(** [float(text)] and [f"{value:.2f}"] are Python built-ins that the
    repository only calls.  [py_float] answers [None] where [float] raises
    [ValueError]. *)
Class FloatText : Type := {
  py_float : string -> option Q;
  fmt2 : Q -> string
}.

(** ** Python dicts with integer keys, in insertion order *)

Section Dict.

Context {V : Type}.

Definition dict : Type := list (Z * V).

Definition keys (d : dict) : list Z := map fst d.

Definition values (d : dict) : list V := map snd d.

(** [d[k]], [None] where Python raises [KeyError]; [k in d] *)
Fixpoint dict_get (k : Z) (d : dict) : option V :=
  match d with
  | [] => None
  | (k', v) :: d' => if k' =? k then Some v else dict_get k d'
  end.

Definition dict_mem (k : Z) (d : dict) : bool :=
  match dict_get k d with Some _ => true | None => false end.

(** [d[k] = v]: an existing key keeps its place, a new one goes last. *)
Fixpoint dict_set (k : Z) (v : V) (d : dict) : dict :=
  match d with
  | [] => [(k, v)]
  | (k', v') :: d' => if k' =? k then (k, v) :: d' else (k', v') :: dict_set k v d'
  end.

(** [del d[k]] *)
Definition dict_del (k : Z) (d : dict) : dict :=
  filter (fun e => negb (fst e =? k)) d.

End Dict.

Arguments dict V : clear implicits.

(** ** QTableWidget contents *)

(** A table is its rows; a cell is [None] until [setItem] gives it an item. *)
Definition table : Type := list (list (option string)).

Definition rowCount (t : table) : nat := List.length t.

(** [t.item(row, column)], [None] for Python's [None]. *)
Definition item (t : table) (row column : nat) : option string :=
  match nth_error t row with
  | Some cells =>
      match nth_error cells column with
      | Some cell => cell
      | None => None
      end
  | None => None
  end.

Fixpoint list_set {A : Type} (n : nat) (a : A) (l : list A) : list A :=
  match l, n with
  | [], _ => []
  | _ :: l', O => a :: l'
  | b :: l', S n' => b :: list_set n' a l'
  end.

Fixpoint list_drop {A : Type} (n : nat) (l : list A) : list A :=
  match l, n with
  | [], _ => []
  | _ :: l', O => l'
  | b :: l', S n' => b :: list_drop n' l'
  end.

(** [t.insertRow(t.rowCount())] on a table of [columns] columns. *)
Definition insertRow_last (columns : nat) (t : table) : table :=
  (t ++ [repeat None columns])%list.

(** [t.setItem(row, column, QTableWidgetItem(text))] *)
Definition setItem (row column : nat) (text : string) (t : table) : table :=
  match nth_error t row with
  | Some cells => list_set row (list_set column (Some text) cells) t
  | None => t
  end.

(** [t.removeRow(row)] *)
Definition removeRow (row : nat) (t : table) : table := list_drop row t.

(** A row appended cell by cell, as every insertion of the repository does. *)
Definition append_row (texts : list string) (t : table) : table :=
  let row := rowCount t in
  snd (fold_left (fun '(col, t') text => (S col, setItem row col text t'))
                 texts (O, insertRow_last (List.length texts) t)).

(** ** The elevation surface *)

Definition point : Type := (Q * Q * Q)%type.

(** What [plot_dem_in_pyvista] hands back for lookups: the two coordinate
    arrays and the grid, [dem_data[i, j]] being row [i], column [j]. *)
Record surface : Type := {
  x_coords : list Q;
  y_coords : list Q;
  dem_data : list (list Q)
}.

(** [np.abs(coords - v)] *)
Definition abs_diff (coords : list Q) (v : Q) : list Q :=
  map (fun c => Qabs (c - v)) coords.

Definition Qlt_bool (a b : Q) : bool := negb (Qle_bool b a).

(** [a.argmin()]: the scan keeps the first smallest entry. *)
Fixpoint argmin_from (a : list Q) (i best_i : nat) (best : Q) : nat :=
  match a with
  | [] => best_i
  | v :: a' =>
      if Qlt_bool v best then argmin_from a' (S i) i v
      else argmin_from a' (S i) best_i best
  end.

Definition argmin (a : list Q) : result nat :=
  match a with
  | [] => Raise ValueError
  | v :: a' => Ok (argmin_from a' 1%nat 0%nat v)
  end.

(** [data[i, j]] *)
Definition index2 (data : list (list Q)) (i j : nat) : result Q :=
  match nth_error data i with
  | Some cells =>
      match nth_error cells j with
      | Some z => Ok z
      | None => Raise IndexError
      end
  | None => Raise IndexError
  end.

(** ** Plotter actors *)

(** [plotter.add_point_labels([coords], [text], ...)] *)
Record label : Type := {
  label_at : point;
  label_text : string
}.

(** [plotter.add_mesh(pv.Spline(points, n), color=color, ...)] *)
Record spline : Type := {
  spline_points : list point;
  spline_n : Z;
  spline_color : rgb
}.

(** How a handler ended: it returned, it showed a [QMessageBox] with the
    given title, an exception left it, or it caught one and reported it. *)
Inductive outcome : Type :=
| Done
| Warned (title : string)
| Raised (e : exn)
| Caught (e : exn).

(** A loop whose body may raise: the state reached, and the exception that
    stopped it, if any. *)
Fixpoint for_each {A S : Type} (body : A -> S -> S * option exn)
         (l : list A) (s : S) : S * option exn :=
  match l with
  | [] => (s, None)
  | a :: l' =>
      match body a s with
      | (s', None) => for_each body l' s'
      | (s', Some e) => (s', Some e)
      end
  end.

(** A list comprehension whose element expression may raise. *)
Fixpoint map_result {A B : Type} (f : A -> result B) (l : list A) : result (list B) :=
  match l with
  | [] => Ok []
  | a :: l' => b <- f a ;; bs <- map_result f l' ;; Ok (b :: bs)
  end.

(** [t.item(row, column).text()]: [AttributeError] on a missing item. *)
Definition cell_text (t : table) (row column : nat) : result string :=
  match item t row column with
  | Some text => Ok text
  | None => Raise AttributeError
  end.

(** [float(text)] *)
Definition float_of {FT : FloatText} (text : string) : result Q :=
  match py_float text with
  | Some q => Ok q
  | None => Raise ValueError
  end.

(** The text a user types into cell [(row, column)]; Qt stores it before
    the [cellChanged] slot runs. *)
Definition type_into (row column : nat) (text : string) (t : table) : table :=
  setItem row column text t.

(** ** [src/mountain.py]: [TrainLineUI], keyed by ids *)

Module Mountain.

(** Values of [self.stations] and [self.train_lines]. *)
Record station : Type := {
  coords : point;
  actor : label
}.

Record line : Type := {
  station_ids : list Z;
  line_actor : spline;
  color : rgb
}.

Record state : Type := {
  stations : dict station;
  train_lines : dict line;
  next_station_id : Z;
  next_line_id : Z;
  station_table : table;
  line_table : table;
  dem : option surface
}.

Definition set_stations (v : dict station) (s : state) : state :=
  {| stations := v; train_lines := train_lines s;
     next_station_id := next_station_id s; next_line_id := next_line_id s;
     station_table := station_table s; line_table := line_table s; dem := dem s |}.

Definition set_train_lines (v : dict line) (s : state) : state :=
  {| stations := stations s; train_lines := v;
     next_station_id := next_station_id s; next_line_id := next_line_id s;
     station_table := station_table s; line_table := line_table s; dem := dem s |}.

Definition set_next_station_id (v : Z) (s : state) : state :=
  {| stations := stations s; train_lines := train_lines s;
     next_station_id := v; next_line_id := next_line_id s;
     station_table := station_table s; line_table := line_table s; dem := dem s |}.

Definition set_next_line_id (v : Z) (s : state) : state :=
  {| stations := stations s; train_lines := train_lines s;
     next_station_id := next_station_id s; next_line_id := v;
     station_table := station_table s; line_table := line_table s; dem := dem s |}.

Definition set_station_table (v : table) (s : state) : state :=
  {| stations := stations s; train_lines := train_lines s;
     next_station_id := next_station_id s; next_line_id := next_line_id s;
     station_table := v; line_table := line_table s; dem := dem s |}.

Definition set_line_table (v : table) (s : state) : state :=
  {| stations := stations s; train_lines := train_lines s;
     next_station_id := next_station_id s; next_line_id := next_line_id s;
     station_table := station_table s; line_table := v; dem := dem s |}.

(** [__init__] (lines 75-79, 139): [loaded] is what [setup_dem] installed,
    [None] when the image could not be read. *)
Definition init (loaded : option surface) : state :=
  {| stations := []; train_lines := [];
     next_station_id := 1; next_line_id := 0;
     station_table := []; line_table := []; dem := loaded |}.

(** [get_elevation] (lines 158-162) *)
Definition get_elevation (s : state) (x y : Q) : result Q :=
  match dem s with
  | None => Raise AttributeError
  | Some d =>
      i <- argmin (abs_diff (x_coords d) x) ;;
      j <- argmin (abs_diff (y_coords d) y) ;;
      index2 (dem_data d) i j
  end.

Definition station_label (sid : Z) (at_ : point) : label :=
  {| label_at := at_; label_text := "Station " ++ Py.str sid |}.

(** [point_picked] (lines 168-191) *)
Definition point_picked {FT : FloatText} (picked : option point) (s : state)
  : state * outcome :=
  match picked with
  | None => (s, Done)
  | Some (x, y, _) =>
      match get_elevation s x y with
      | Raise e => (s, Raised e)
      | Ok z =>
          let coords := (x, y, z) in
          let sid := next_station_id s in
          let s := set_next_station_id (sid + 1) s in
          let marker := station_label sid coords in
          let s := set_stations
                     (dict_set sid {| coords := coords; actor := marker |} (stations s)) s in
          let s := set_station_table
                     (append_row [Py.str sid; fmt2 x; fmt2 y; fmt2 z] (station_table s)) s in
          (s, Done)
      end
  end.

(** The points of a line's curve: [self.stations[sid]["coords"] for sid in
    station_ids if sid in self.stations]. *)
Definition known_coords (stations : dict station) (ids : list Z) : list point :=
  flat_map (fun sid => match dict_get sid stations with
                       | Some st => [coords st]
                       | None => []
                       end) ids.

(** [[self.stations[sid]["coords"] for sid in ids]]: [KeyError] on an
    unknown id. *)
Definition coords_of (stations : dict station) (ids : list Z) : result (list point) :=
  map_result (fun sid => match dict_get sid stations with
                         | Some st => Ok (coords st)
                         | None => Raise KeyError
                         end) ids.

Definition curve (points : list point) (c : rgb) : spline :=
  {| spline_points := points; spline_n := 100; spline_color := c |}.

(** The body of [update_line_actor] (lines 321-331) on the line it names. *)
Definition update_line_actor_of (stations : dict station) (ln : line) : line :=
  if (List.length (station_ids ln) <? 2)%nat then ln
  else {| station_ids := station_ids ln;
          line_actor := curve (known_coords stations (station_ids ln)) (color ln);
          color := color ln |}.

Definition update_line_actor (lid : Z) (s : state) : state * option exn :=
  match dict_get lid (train_lines s) with
  | None => (s, Some KeyError)
  | Some ln =>
      (set_train_lines
         (dict_set lid (update_line_actor_of (stations s) ln) (train_lines s)) s, None)
  end.

(** [update_all_lines] (lines 333-335) *)
Definition update_all_lines (s : state) : state * option exn :=
  for_each update_line_actor (keys (train_lines s)) s.

(** [update_line_table] (lines 337-348) *)
Definition update_line_table (s : state) : state :=
  set_line_table
    (fold_left (fun t '(lid, ln) =>
                  append_row [Py.str lid; Py.join ", " (map Py.str (station_ids ln))] t)
               (train_lines s) [])
    s.

(** [int(t.item(row, 0).text())]: the id written in a row's first cell. *)
Definition row_id (t : table) (row : nat) : result Z :=
  t0 <- cell_text t row 0 ;; Py.int10 t0.

(** [station_cell_changed] (lines 193-217) *)
Definition station_cell_changed {FT : FloatText} (row column : nat) (s : state)
  : state * outcome :=
  if negb ((column =? 1)%nat || (column =? 2)%nat) then (s, Done)
  else
    match (sid <- row_id (station_table s) row ;;
           t1 <- cell_text (station_table s) row 1 ;;
           x <- float_of t1 ;;
           t2 <- cell_text (station_table s) row 2 ;;
           y <- float_of t2 ;;
           Ok (sid, x, y)) with
    | Raise _ => (s, Done)
    | Ok (sid, x, y) =>
        match get_elevation s x y with
        | Raise e => (s, Raised e)
        | Ok new_z =>
            let s := set_station_table (setItem row 3 (fmt2 new_z) (station_table s)) s in
            match dict_get sid (stations s) with
            | None => (s, Raised KeyError)
            | Some _ =>
                let new_marker := station_label sid (x, y, new_z) in
                let s := set_stations
                           (dict_set sid {| coords := (x, y, new_z); actor := new_marker |}
                                     (stations s)) s in
                match update_all_lines s with
                | (s, None) => (s, Done)
                | (s, Some e) => (s, Raised e)
                end
            end
        end
    end.

(** [l.remove(x)] on a list that holds [x]: the first occurrence goes. *)
Fixpoint list_remove (x : Z) (l : list Z) : list Z :=
  match l with
  | [] => []
  | y :: l' => if y =? x then l' else y :: list_remove x l'
  end.

Definition list_mem (x : Z) (l : list Z) : bool := existsb (Z.eqb x) l.

(** [delete_line_by_id] (lines 315-319) *)
Definition delete_line_by_id (lid : Z) (s : state) : state :=
  if dict_mem lid (train_lines s) then
    update_line_table (set_train_lines (dict_del lid (train_lines s)) s)
  else s.

(** The first loop of [delete_station] (lines 232-240) over the items of
    [self.train_lines]: each line is changed in place, and
    [update_line_actor(lid)] rebuilds the actor of that same line. *)
Fixpoint unlink_station (sid : Z) (stations : dict station) (items : dict line)
  : dict line * list Z :=
  match items with
  | [] => ([], [])
  | (lid, ln) :: rest =>
      let '(rest', to_remove) := unlink_station sid stations rest in
      if list_mem sid (station_ids ln) then
        let ln := {| station_ids := list_remove sid (station_ids ln);
                     line_actor := line_actor ln; color := color ln |} in
        if (List.length (station_ids ln) <? 2)%nat then
          ((lid, ln) :: rest', lid :: to_remove)
        else
          ((lid, update_line_actor_of stations ln) :: rest', to_remove)
      else ((lid, ln) :: rest', to_remove)
  end.

(** [delete_station] (lines 219-243); [selected] is the top row of the
    selection, [None] when nothing is selected. *)
Definition delete_station (selected : option nat) (s : state) : state * outcome :=
  match selected with
  | None => (s, Warned "Delete Station")
  | Some row =>
      match row_id (station_table s) row with
      | Raise e => (s, Raised e)
      | Ok sid =>
          let s := set_station_table (removeRow row (station_table s)) s in
          let s := if dict_mem sid (stations s)
                   then set_stations (dict_del sid (stations s)) s else s in
          let '(lines, to_remove) := unlink_station sid (stations s) (train_lines s) in
          let s := set_train_lines lines s in
          let s := fold_left (fun s lid => delete_line_by_id lid s) to_remove s in
          (update_line_table s, Done)
      end
  end.

(** [add_line] (lines 245-272); [dialog] is [None] when the selection dialog
    is rejected, else the ids it returns; [new_color] is the random colour. *)
Definition add_line (dialog : option (list Z)) (new_color : rgb) (s : state)
  : state * outcome :=
  if (List.length (stations s) <? 2)%nat then (s, Warned "Add Line")
  else
    match dialog with
    | None => (s, Done)
    | Some selected_ids =>
        if (List.length selected_ids <? 2)%nat then (s, Warned "Add Line")
        else
          match coords_of (stations s) selected_ids with
          | Raise e => (s, Raised e)
          | Ok points =>
              let lid := next_line_id s in
              let s := set_next_line_id (lid + 1) s in
              let s := set_train_lines
                         (dict_set lid {| station_ids := selected_ids;
                                          line_actor := curve points new_color;
                                          color := new_color |} (train_lines s)) s in
              (update_line_table s, Done)
          end
    end.

(** [edit_line] (lines 274-304) *)
Definition edit_line (selected : option nat) (dialog : option (list Z)) (s : state)
  : state * outcome :=
  match selected with
  | None => (s, Warned "Edit Line")
  | Some row =>
      match row_id (line_table s) row with
      | Raise e => (s, Raised e)
      | Ok lid =>
          (* the pre-selection loop reads self.train_lines[lid] once per
             listed station *)
          if negb (dict_mem lid (train_lines s))
             && negb (List.length (stations s) =? 0)%nat
          then (s, Raised KeyError)
          else
            match dialog with
            | None => (s, Done)
            | Some new_station_ids =>
                if (List.length new_station_ids <? 2)%nat then (s, Warned "Edit Line")
                else
                  match dict_get lid (train_lines s) with
                  | None => (s, Raised KeyError)
                  | Some ln =>
                      match coords_of (stations s) new_station_ids with
                      | Raise e => (s, Raised e)
                      | Ok points =>
                          let s := set_train_lines
                                     (dict_set lid
                                        {| station_ids := new_station_ids;
                                           line_actor := curve points (color ln);
                                           color := color ln |} (train_lines s)) s in
                          (update_line_table s, Done)
                      end
                  end
            end
      end
  end.

(** [delete_line] (lines 306-313) *)
Definition delete_line (selected : option nat) (s : state) : state * outcome :=
  match selected with
  | None => (s, Warned "Delete Line")
  | Some row =>
      match row_id (line_table s) row with
      | Raise e => (s, Raised e)
      | Ok lid => (delete_line_by_id lid s, Done)
      end
  end.

(** [[int(x.strip()) for x in text.split(",") if x.strip().isdigit()]] *)
Definition digit_entries (text : string) : result (list Z) :=
  map_result (fun x => Py.int10 (Py.strip x))
             (filter (fun x => Py.isdigit (Py.strip x)) (Py.split "," text)).

(** [line_cell_changed] (lines 350-365) *)
Definition line_cell_changed (row column : nat) (s : state) : state * outcome :=
  if negb (column =? 1)%nat then (s, Done)
  else
    match (lid <- row_id (line_table s) row ;;
           text <- cell_text (line_table s) row 1 ;;
           new_ids <- digit_entries text ;;
           Ok (lid, new_ids)) with
    | Raise e => (s, Caught e)
    | Ok (lid, new_ids) =>
        if (List.length new_ids <? 2)%nat then (update_line_table s, Warned "Edit Line")
        else
          match dict_get lid (train_lines s) with
          | None => (s, Caught KeyError)
          | Some ln =>
              let ln := {| station_ids := new_ids; line_actor := line_actor ln;
                           color := color ln |} in
              let s := set_train_lines (dict_set lid ln (train_lines s)) s in
              match update_line_actor lid s with
              | (s, None) => (s, Done)
              | (s, Some e) => (s, Caught e)
              end
          end
    end.

(** What a user can do in a session. *)
Inductive event : Type :=
| Pick (picked : option point)
| EditStationCell (row column : nat) (text : string)
| DeleteStation (selected : option nat)
| AddLine (dialog : option (list Z)) (new_color : rgb)
| EditLine (selected : option nat) (dialog : option (list Z))
| DeleteLine (selected : option nat)
| EditLineCell (row column : nat) (text : string).

Definition handle {FT : FloatText} (e : event) (s : state) : state * outcome :=
  match e with
  | Pick picked => point_picked picked s
  | EditStationCell row column text =>
      (* the id column is not editable (line 190) *)
      if (column =? 0)%nat then (s, Done)
      else station_cell_changed row column
             (set_station_table (type_into row column text (station_table s)) s)
  | DeleteStation selected => delete_station selected s
  | AddLine dialog new_color => add_line dialog new_color s
  | EditLine selected dialog => edit_line selected dialog s
  | DeleteLine selected => delete_line selected s
  | EditLineCell row column text =>
      (* the id column is not editable (line 344) *)
      if (column =? 0)%nat then (s, Done)
      else line_cell_changed row column
             (set_line_table (type_into row column text (line_table s)) s)
  end.

Definition step {FT : FloatText} (s : state) (e : event) : state := fst (handle e s).

Definition run {FT : FloatText} (es : list event) (s : state) : state :=
  fold_left step es s.

End Mountain.

(** ** [src/gui.py]: [TrainLineUI], driven by its tables *)

Module Gui.

(** Values of [self.stations] and [self.lines]. *)
Record station : Type := {
  name : string;
  coords : point;
  actor : label
}.

Record line : Type := {
  line_name : string;
  station_ids : list string;
  line_actor : option spline;
  color : rgb
}.

(** [station_utils.lookup_station_coords] ([src/station_utils.py]): the
    inner loop stops at the first station of that name. *)
Fixpoint first_named (st_name : string) (items : dict station) : option point :=
  match items with
  | [] => None
  | (st_id, st_data) :: rest =>
      if String.eqb (name st_data) st_name then Some (coords st_data)
      else first_named st_name rest
  end.

Definition lookup_station_coords (station_names : list string)
           (stations_dict : dict station) : list point :=
  fold_left (fun coords st_name =>
               match first_named st_name stations_dict with
               | Some c => (coords ++ [c])%list
               | None => coords
               end)
            station_names [].

(** [line_utils.build_line_actor] ([src/line_utils.py]) *)
Definition build_line_actor (coords_list : list point) (color : option rgb)
  : option spline :=
  let color := match color with Some c => c | None => (0%Q, 1%Q, 0%Q) end in
  if (List.length coords_list <? 2)%nat then None
  else Some {| spline_points := coords_list; spline_n := 50; spline_color := color |}.

Record state : Type := {
  stations : dict station;
  next_station_id : Z;
  lines : dict line;
  next_line_id : Z;
  station_table : table;
  line_table : table;
  dem : option surface
}.

Definition set_stations (v : dict station) (s : state) : state :=
  {| stations := v; next_station_id := next_station_id s;
     lines := lines s; next_line_id := next_line_id s;
     station_table := station_table s; line_table := line_table s; dem := dem s |}.

Definition set_next_station_id (v : Z) (s : state) : state :=
  {| stations := stations s; next_station_id := v;
     lines := lines s; next_line_id := next_line_id s;
     station_table := station_table s; line_table := line_table s; dem := dem s |}.

Definition set_lines (v : dict line) (s : state) : state :=
  {| stations := stations s; next_station_id := next_station_id s;
     lines := v; next_line_id := next_line_id s;
     station_table := station_table s; line_table := line_table s; dem := dem s |}.

Definition set_next_line_id (v : Z) (s : state) : state :=
  {| stations := stations s; next_station_id := next_station_id s;
     lines := lines s; next_line_id := v;
     station_table := station_table s; line_table := line_table s; dem := dem s |}.

Definition set_station_table (v : table) (s : state) : state :=
  {| stations := stations s; next_station_id := next_station_id s;
     lines := lines s; next_line_id := next_line_id s;
     station_table := v; line_table := line_table s; dem := dem s |}.

Definition set_line_table (v : table) (s : state) : state :=
  {| stations := stations s; next_station_id := next_station_id s;
     lines := lines s; next_line_id := next_line_id s;
     station_table := station_table s; line_table := v; dem := dem s |}.

Definition set_dem (v : option surface) (s : state) : state :=
  {| stations := stations s; next_station_id := next_station_id s;
     lines := lines s; next_line_id := next_line_id s;
     station_table := station_table s; line_table := line_table s; dem := v |}.

(** [__init__] (lines 145-151, 221-225): [loaded] is what [setup_dem]
    installed, [None] when the image could not be read. *)
Definition init (loaded : option surface) : state :=
  {| stations := []; next_station_id := 1;
     lines := []; next_line_id := 1;
     station_table := []; line_table := []; dem := loaded |}.

(** [clear_all] (lines 286-297) *)
Definition clear_all (s : state) : state :=
  let s := set_station_table [] s in
  let s := set_line_table [] s in
  let s := set_stations [] s in
  let s := set_lines [] s in
  let s := set_next_station_id 1 s in
  set_next_line_id 1 s.

(** [get_elevation] (lines 327-332) *)
Definition get_elevation (s : state) (x y : Q) : result Q :=
  match dem s with
  | None => Ok 0%Q
  | Some d =>
      i <- argmin (abs_diff (x_coords d) x) ;;
      j <- argmin (abs_diff (y_coords d) y) ;;
      index2 (dem_data d) i j
  end.

(** One turn of the loop of [refresh_stations_on_plot] (lines 393-410). *)
Definition refresh_stations_row {FT : FloatText} (t : table) (row : nat)
           (acc : dict station * Z) : dict station * Z :=
  let '(stations, station_id_counter) := acc in
  match item t row 0, item t row 1, item t row 2, item t row 3 with
  | Some st_name, Some x_text, Some y_text, Some z_text =>
      match py_float x_text, py_float y_text, py_float z_text with
      | Some x, Some y, Some z =>
          let coords := (x, y, z) in
          let label_actor := {| label_at := coords; label_text := st_name |} in
          (dict_set station_id_counter
                    {| name := st_name; coords := coords; actor := label_actor |}
                    stations,
           station_id_counter + 1)
      | _, _, _ => acc
      end
  | _, _, _, _ => acc
  end.

(** [refresh_stations_on_plot] (lines 386-410) *)
Definition refresh_stations_on_plot {FT : FloatText} (s : state) : state :=
  let t := station_table s in
  set_stations
    (fst (fold_left (fun acc row => refresh_stations_row t row acc)
                    (seq 0 (rowCount t)) ([], 1)))
    s.

(** [[s.strip() for s in text.split(",") if s.strip()]] *)
Definition names_of (text : string) : list string :=
  filter Py.truthy (map Py.strip (Py.split "," text)).

(** One turn of the loop of [refresh_lines_on_plot] (lines 476-493). *)
Definition refresh_lines_row (t : table) (stations : dict station) (row : nat)
           (acc : dict line * Z) : (dict line * Z) * option exn :=
  let '(lines, line_id_counter) := acc in
  match item t row 0, item t row 1, item t row 2 with
  | Some name_text, Some stations_text, Some color_text =>
      let line_name := Py.strip name_text in
      let station_names_str := Py.strip stations_text in
      if negb (Py.truthy line_name) || negb (Py.truthy station_names_str)
      then (acc, None)
      else
        let st_names := names_of station_names_str in
        let coords := lookup_station_coords st_names stations in
        if (List.length coords <? 2)%nat then (acc, None)
        else
          match hex_to_rgb (Py.strip color_text) with
          | Raise e => (acc, Some e)
          | Ok color =>
              let actor := build_line_actor coords (Some color) in
              ((dict_set line_id_counter
                         {| line_name := line_name; station_ids := st_names;
                            line_actor := actor; color := color |}
                         lines,
                line_id_counter + 1), None)
          end
  | _, _, _ => (acc, None)
  end.

(** [refresh_lines_on_plot] (lines 469-493) *)
Definition refresh_lines_on_plot (s : state) : state * option exn :=
  let t := line_table s in
  let '((lines, _), e) :=
    for_each (refresh_lines_row t (stations s)) (seq 0 (rowCount t)) ([], 1) in
  (set_lines lines s, e).

(** The two refreshes that end most handlers. *)
Definition refresh_both {FT : FloatText} (s : state) : state * outcome :=
  match refresh_lines_on_plot (refresh_stations_on_plot s) with
  | (s, None) => (s, Done)
  | (s, Some e) => (s, Raised e)
  end.

Definition refresh_lines_only (s : state) : state * outcome :=
  match refresh_lines_on_plot s with
  | (s, None) => (s, Done)
  | (s, Some e) => (s, Raised e)
  end.

(** [point_picked] (lines 340-356) *)
Definition point_picked {FT : FloatText} (picked : option point) (s : state)
  : state * outcome :=
  match picked with
  | None => (s, Done)
  | Some (x, y, _) =>
      match get_elevation s x y with
      | Raise e => (s, Raised e)
      | Ok z =>
          let name := "Station " ++ Py.str (next_station_id s) in
          let s := set_next_station_id (next_station_id s + 1) s in
          let s := set_station_table
                     (append_row [name; fmt2 x; fmt2 y; fmt2 z] (station_table s)) s in
          refresh_both s
      end
  end.

(** [station_table_cell_changed] (lines 358-374) *)
Definition station_table_cell_changed {FT : FloatText} (row column : nat) (s : state)
  : state * outcome :=
  match item (station_table s) row 1, item (station_table s) row 2 with
  | Some x_text, Some y_text =>
      if (column =? 1)%nat || (column =? 2)%nat then
        match py_float x_text, py_float y_text with
        | Some x, Some y =>
            match get_elevation s x y with
            | Raise e => (s, Raised e)
            | Ok z =>
                refresh_both
                  (set_station_table (setItem row 3 (fmt2 z) (station_table s)) s)
            end
        | _, _ => (s, Done)
        end
      else refresh_both s
  | _, _ => (s, Done)
  end.

(** [delete_station] (lines 376-384) *)
Definition delete_station {FT : FloatText} (selected : option nat) (s : state)
  : state * outcome :=
  match selected with
  | None => (s, Warned "Delete Station")
  | Some row =>
      refresh_both (set_station_table (removeRow row (station_table s)) s)
  end.

(** [line_table_cell_changed] (lines 415-416) *)
Definition line_table_cell_changed (row column : nat) (s : state) : state * outcome :=
  refresh_lines_only s.

(** What [LineEditorDialog] holds when it is accepted. *)
Record line_editor : Type := {
  name_edit : string;
  selected_list : list string;
  selected_color : rgb
}.

(** [LineEditorDialog.get_line_data] (lines 127-132): name, station names,
    colour. *)
Definition get_line_data (dlg : line_editor) : string * list string * rgb :=
  (Py.strip (name_edit dlg), selected_list dlg, selected_color dlg).

Definition line_cells (data : string * list string * rgb) : list string :=
  let '(line_name, ids, c) := data in
  [line_name; Py.join ", " ids; rgb_to_hex c].

(** [add_line] (lines 418-431); [dialog] is [None] when the dialog is
    rejected. *)
Definition add_line (dialog : option line_editor) (s : state) : state * outcome :=
  if (List.length (stations s) <? 2)%nat then (s, Warned "Add Line")
  else
    match dialog with
    | None => (s, Done)
    | Some dlg =>
        let new_line := get_line_data dlg in
        refresh_lines_only
          (set_line_table (append_row (line_cells new_line) (line_table s)) s)
    end.

(** [edit_line] (lines 433-458) *)
Definition edit_line (selected : option nat) (dialog : option line_editor) (s : state)
  : state * outcome :=
  match selected with
  | None => (s, Warned "Edit Line")
  | Some row =>
      match item (line_table s) row 0, item (line_table s) row 1,
            item (line_table s) row 2 with
      | Some _, Some _, Some color_text =>
          match hex_to_rgb (Py.strip color_text) with
          | Raise e => (s, Raised e)
          | Ok _ =>
              match dialog with
              | None => (s, Done)
              | Some dlg =>
                  let '(line_name, ids, c) := get_line_data dlg in
                  let t := setItem row 0 line_name (line_table s) in
                  let t := setItem row 1 (Py.join ", " ids) t in
                  let t := setItem row 2 (rgb_to_hex c) t in
                  refresh_lines_only (set_line_table t s)
              end
          end
      | _, _, _ => (s, Done)
      end
  end.

(** [delete_line] (lines 460-467) *)
Definition delete_line (selected : option nat) (s : state) : state * outcome :=
  match selected with
  | None => (s, Warned "Delete Line")
  | Some row => refresh_lines_only (set_line_table (removeRow row (line_table s)) s)
  end.

(** [load_new_dem] (lines 267-284); [choice] is [None] when no file is
    chosen, else the surface read from it or the exception of the read. *)
Definition load_new_dem {FT : FloatText} (choice : option (result surface)) (s : state)
  : state * outcome :=
  match choice with
  | None => (s, Done)
  | Some (Raise _) => (s, Warned "Error")
  | Some (Ok d) => refresh_both (set_dem (Some d) s)
  end.

(** [load_station_data] and [load_line_data] (lines 533-552): the records
    are the rows read from the file, each field already a text. *)
Definition load_station_data (station_data : list (list string)) (s : state) : state :=
  let t := fold_left (fun t rec => append_row rec t) station_data [] in
  set_next_station_id (Z.of_nat (rowCount t) + 1) (set_station_table t s).

Definition load_line_data (line_data : list (list string)) (s : state) : state :=
  let t := fold_left (fun t rec => append_row rec t) line_data [] in
  set_next_line_id (Z.of_nat (rowCount t) + 1) (set_line_table t s).

(** [import_data] (lines 520-531) *)
Definition import_data {FT : FloatText}
           (choice : option (result (list (list string) * list (list string))))
           (s : state) : state * outcome :=
  match choice with
  | None => (s, Done)
  | Some (Raise e) => (s, Caught e)
  | Some (Ok (station_data, line_data)) =>
      let s := load_station_data station_data s in
      let s := load_line_data line_data s in
      match refresh_lines_on_plot (refresh_stations_on_plot s) with
      | (s, None) => (s, Done)
      | (s, Some e) => (s, Caught e)
      end
  end.

(** What a user can do in a session. *)
Inductive event : Type :=
| Pick (picked : option point)
| EditStationCell (row column : nat) (text : string)
| DeleteStation (selected : option nat)
| AddLine (dialog : option line_editor)
| EditLine (selected : option nat) (dialog : option line_editor)
| DeleteLine (selected : option nat)
| EditLineCell (row column : nat) (text : string)
| ClearAll
| LoadDem (choice : option (result surface))
| Import (choice : option (result (list (list string) * list (list string)))).

Definition handle {FT : FloatText} (e : event) (s : state) : state * outcome :=
  match e with
  | Pick picked => point_picked picked s
  | EditStationCell row column text =>
      station_table_cell_changed row column
        (set_station_table (type_into row column text (station_table s)) s)
  | DeleteStation selected => delete_station selected s
  | AddLine dialog => add_line dialog s
  | EditLine selected dialog => edit_line selected dialog s
  | DeleteLine selected => delete_line selected s
  | EditLineCell row column text =>
      line_table_cell_changed row column
        (set_line_table (type_into row column text (line_table s)) s)
  | ClearAll => (clear_all s, Done)
  | LoadDem choice => load_new_dem choice s
  | Import choice => import_data choice s
  end.

Definition step {FT : FloatText} (s : state) (e : event) : state := fst (handle e s).

Definition run {FT : FloatText} (es : list event) (s : state) : state :=
  fold_left step es s.

End Gui.

(** ** A concrete [FloatText] for examples *)

(** Plain decimal notation, [-12.50]: what [f"{v:.2f}"] writes and [float]
    reads back.  The general theorems hold for every [FloatText]; this one
    only gives the examples something to run. *)
Module Plain.

Definition parse (text : string) : option Q :=
  let '(neg, body) := Py.split_sign (Py.strip text) in
  let signed (q : Q) : Q := if neg then Qopp q else q in
  let number (digits : string) : Z :=
    match Py.digits_of Py.digit_val 10 digits 0 false with
    | Some n => n
    | None => 0
    end in
  match Py.split "." body with
  | [whole] =>
      if Py.isdigit whole then Some (signed (inject_Z (number whole))) else None
  | [whole; frac] =>
      if Py.isdigit whole && Py.isdigit frac then
        Some (signed (Qmake (number whole * 10 ^ Z.of_nat (String.length frac)
                             + number frac)
                            (Z.to_pos (10 ^ Z.of_nat (String.length frac)))))
      else None
  | _ => None
  end.

(** Rounding to the nearest integer, ties to even. *)
Definition round_half_even (q : Q) : Z :=
  let f := Qfloor q in
  match Qcompare (q - inject_Z f) (1 # 2) with
  | Lt => f
  | Gt => f + 1
  | Eq => if Z.even f then f else f + 1
  end.

Definition print2 (q : Q) : string :=
  let n := round_half_even (q * 100) in
  let a := Z.abs n in
  (if n <? 0 then "-" else "")
  ++ Py.str (a / 100) ++ "."
  ++ String (Py.dec_digit ((a / 10) mod 10)) (String (Py.dec_digit (a mod 10)) "").

Definition text : FloatText := {| py_float := parse; fmt2 := print2 |}.

End Plain.

(** A 3 x 2 surface over x samples 0, 50, 100 and y samples 0, 100. *)
Definition demo_surface : surface :=
  {| x_coords := [0; 50; 100]%Q;
     y_coords := [0; 100]%Q;
     dem_data := [[1; 2]; [3; 4]; [5; 6]]%Q |}.

Definition red : rgb := (1, 0, 0)%Q.

(** Three picked points over [demo_surface]. *)
Definition p1 : point := (10, 20, 0)%Q.
Definition p2 : point := (60, 90, 0)%Q.
Definition p3 : point := (100, 0, 0)%Q.

(** Three stations and one line through them, in either variant. *)
Definition demo_mountain : Mountain.state :=
  Mountain.run (FT := Plain.text)
    [Mountain.Pick (Some p1); Mountain.Pick (Some p2); Mountain.Pick (Some p3);
     Mountain.AddLine (Some [1; 2; 3]) red]
    (Mountain.init (Some demo_surface)).

Definition demo_gui : Gui.state :=
  Gui.run (FT := Plain.text)
    [Gui.Pick (Some p1); Gui.Pick (Some p2); Gui.Pick (Some p3);
     Gui.AddLine (Some {| Gui.name_edit := "L1";
                          Gui.selected_list := ["Station 1"; "Station 2"; "Station 3"];
                          Gui.selected_color := red |})]
    (Gui.init (Some demo_surface)).


(** A line editor accepted with a single station selected. *)
Definition one_station_dialog : Gui.line_editor :=
  {| Gui.name_edit := "L2";
     Gui.selected_list := ["Station 1"];
     Gui.selected_color := red |}.

(** ** Notions used to state the properties *)

(** Upper-case hex digits and the [#RRGGBB] shape. *)
Definition upper_hex (c : ascii) : bool :=
  let n := nat_of_ascii c in
  (((48 <=? n) && (n <=? 57)) || ((65 <=? n) && (n <=? 70)))%nat.

Definition is_RRGGBB (s : string) : bool :=
  match s with
  | String h rest =>
      Ascii.eqb h "#" && (String.length rest =? 6)%nat && Py.all_chars upper_hex rest
  | EmptyString => false
  end.

(** [i] is the index of the sample nearest to [v]: no sample is nearer, and
    every sample before it is strictly farther. *)
Definition nearest_index (samples : list Q) (v : Q) (i : nat) : Prop :=
  exists c,
    nth_error samples i = Some c
    /\ (forall k c', nth_error samples k = Some c' -> (Qabs (c - v) <= Qabs (c' - v))%Q)
    /\ (forall k c', (k < i)%nat -> nth_error samples k = Some c' ->
                     (Qabs (c - v) < Qabs (c' - v))%Q).

(** The grid has one row per x sample and one column per y sample. *)
Definition grid_ok (d : surface) : Prop :=
  List.length (dem_data d) = List.length (x_coords d)
  /\ Forall (fun cells => List.length cells = List.length (y_coords d)) (dem_data d).

(** The first station of a given name, in iteration order, and the lookup
    as the specification words it: one coordinate per resolvable name. *)
Definition resolve (st_name : string) (stations_dict : dict Gui.station) : option point :=
  option_map (fun e => Gui.coords (snd e))
             (find (fun e => String.eqb (Gui.name (snd e)) st_name) stations_dict).

Definition resolvable (stations_dict : dict Gui.station) (st_name : string) : bool :=
  match resolve st_name stations_dict with Some _ => true | None => false end.

Definition lookup_spec (station_names : list string) (stations_dict : dict Gui.station)
  : list point :=
  flat_map (fun st_name => match resolve st_name stations_dict with
                           | Some c => [c]
                           | None => []
                           end) station_names.

(** How a registry's ids may change in one step: the counter does not go
    down, the ids stay distinct, and an id that is new lies between the old
    and the new counter. *)
Definition reg_step (ks : list Z) (n : Z) (ks' : list Z) (n' : Z) : Prop :=
  n <= n'
  /\ (NoDup ks -> NoDup ks')
  /\ (forall k, In k ks' -> In k ks \/ n <= k < n').

(** The ids of a registry are exactly [1 .. n], in order. *)
Definition numbered {V : Type} (d : dict V) : Prop :=
  keys d = map Z.of_nat (seq 1 (List.length d)).

(** The line a row of the line table stands for in [src/gui.py], if any:
    name, station names and colour text, when the name and the list are
    not blank and at least two of the names resolve. *)
Definition row_line (t : table) (sts : dict Gui.station) (row : nat)
  : option (string * list string * string) :=
  match item t row 0, item t row 1, item t row 2 with
  | Some name_text, Some stations_text, Some color_text =>
      let st_names := Gui.names_of (Py.strip stations_text) in
      if Py.truthy (Py.strip name_text) && Py.truthy (Py.strip stations_text)
         && (2 <=? List.length (Gui.lookup_station_coords st_names sts))%nat
      then Some (Py.strip name_text, st_names, Py.strip color_text)
      else None
  | _, _, _ => None
  end.

(** [ln] is the line of some row: its names are those typed in the row, at
    least two of them resolve, and its curve runs through the coordinates
    the names resolve to. *)
Definition from_row (t : table) (sts : dict Gui.station) (ln : Gui.line) : Prop :=
  exists row color_text,
    row_line t sts row = Some (Gui.line_name ln, Gui.station_ids ln, color_text)
    /\ hex_to_rgb color_text = Ok (Gui.color ln)
    /\ (2 <= List.length (Gui.lookup_station_coords (Gui.station_ids ln) sts))%nat
    /\ Gui.line_actor ln
       = Gui.build_line_actor (Gui.lookup_station_coords (Gui.station_ids ln) sts)
                              (Some (Gui.color ln)).



(** A byte [n] is written by [f"{n:02X}"] as its two upper-case hex digits,
    which read back as [n]: the check run over the 256 bytes. *)
Definition byte_check (n : Z) : bool :=
  let a := Py.hex_digit (n / 16) in
  let b := Py.hex_digit (n mod 16) in
  String.eqb (Py.format_02X n) (String a (String b ""))
  && upper_hex a && upper_hex b
  && match Py.hex_val a, Py.hex_val b with
     | Some va, Some vb => (16 * va + vb =? n)
     | _, _ => false
     end.

(** The invariant of the [argmin] scan: [v] stands at [i] in what was
    seen, nothing seen is smaller, and everything seen before [i] is
    larger. *)
Definition first_min (l : list Q) (i : nat) (v : Q) : Prop :=
  nth_error l i = Some v
  /\ (forall k w, nth_error l k = Some w -> (v <= w)%Q)
  /\ (forall k w, (k < i)%nat -> nth_error l k = Some w -> (v < w)%Q).

(** Both registries of [src/mountain.py] step from [s] to [s']. *)
Definition ids_step (s s' : Mountain.state) : Prop :=
  reg_step (keys (Mountain.stations s)) (Mountain.next_station_id s)
           (keys (Mountain.stations s')) (Mountain.next_station_id s')
  /\ reg_step (keys (Mountain.train_lines s)) (Mountain.next_line_id s)
              (keys (Mountain.train_lines s')) (Mountain.next_line_id s').

(** The accumulator of a refresh loop: a numbered registry and the next
    number. *)
Definition counts {V : Type} (acc : dict V * Z) : Prop :=
  numbered (fst acc) /\ snd acc = Z.of_nat (List.length (fst acc)) + 1.

(** Both registries of [src/gui.py] are numbered [1 .. n]. *)
Definition all_numbered (s : Gui.state) : Prop :=
  numbered (Gui.stations s) /\ numbered (Gui.lines s).

Definition no_comma (s : string) : bool :=
  Py.all_chars (fun c => negb (Ascii.eqb c ",")) s.

(** The loop of [refresh_lines_on_plot] over the rows of [t]. *)
Definition lines_loop (t : table) (sts : dict Gui.station)
  : (dict Gui.line * Z) * option exn :=
  for_each (Gui.refresh_lines_row t sts) (seq 0 (rowCount t)) ([], 1).

(** The lines registry is what a refresh would rebuild. *)
Definition up_to_date (s : Gui.state) : Prop :=
  Gui.lines s = Gui.lines (fst (Gui.refresh_lines_on_plot s)).




(** ** Notions used to state the further properties *)

(** The first cell of every row: where both tables of [src/mountain.py]
    show an id. *)
Definition id_column (t : table) : list (option string) :=
  map (fun cells => match cells with c :: _ => c | [] => None end) t.

(** The rows of [t] show the ids [ks], one row per id, in order. *)
Definition mirrors (ks : list Z) (t : table) : Prop :=
  id_column t = map (fun k => Some (Py.str k)) ks.

(** Both tables of [src/mountain.py] show the ids of their registry. *)
Definition table_mirror (s : Mountain.state) : Prop :=
  mirrors (keys (Mountain.stations s)) (Mountain.station_table s)
  /\ mirrors (keys (Mountain.train_lines s)) (Mountain.line_table s).




(** Ids of [src/mountain.py] handed out so far: distinct and below the
    counters. *)
Definition ids_ok (s : Mountain.state) : Prop :=
  NoDup (keys (Mountain.stations s)) /\ NoDup (keys (Mountain.train_lines s))
  /\ (forall k, In k (keys (Mountain.stations s)) -> k < Mountain.next_station_id s)
  /\ (forall k, In k (keys (Mountain.train_lines s)) -> k < Mountain.next_line_id s).

(** The station a row of the station table stands for in [src/gui.py], if
    any: all four cells are set and the three coordinates are numbers. *)
Definition row_station {FT : FloatText} (t : table) (row : nat) : option Gui.station :=
  match item t row 0, item t row 1, item t row 2, item t row 3 with
  | Some st_name, Some x_text, Some y_text, Some z_text =>
      match py_float x_text, py_float y_text, py_float z_text with
      | Some x, Some y, Some z =>
          Some {| Gui.name := st_name; Gui.coords := (x, y, z);
                  Gui.actor := {| label_at := (x, y, z); label_text := st_name |} |}
      | _, _, _ => None
      end
  | _, _, _, _ => None
  end.

(** The stations of the rows that stand for one, in row order. *)
Definition station_rows {FT : FloatText} (t : table) : list Gui.station :=
  flat_map (fun row => match row_station t row with
                       | Some st => [st]
                       | None => []
                       end) (seq 0 (rowCount t)).

(** ** Loading a surface ([src/dem_utils.py], lines 13-23) *)

(** [np.linspace(start, stop, num)]: [num] samples [start + i * step] with
    [step = (stop - start) / (num - 1)], the last one set to [stop]. *)
Definition linspace (start stop : Q) (num : nat) : list Q :=
  match num with
  | O => []
  | S O => [0 * (stop - start) + start]%Q
  | S div =>
      (map (fun i => inject_Z (Z.of_nat i) * ((stop - start) / inject_Z (Z.of_nat div))
                     + start)%Q (seq 0 div)
       ++ [stop])%list
  end.

(** [data.shape] of a two-dimensional array given by its rows. *)
Definition shape (data : list (list Q)) : nat * nat :=
  (List.length data, match data with row :: _ => List.length row | [] => O end).

(** [plot_dem_in_pyvista(data, boundaries)], as far as lookups go: the land
    and sea meshes it also returns are only drawn. *)
Definition plot_dem_in_pyvista (data : list (list Q)) (boundaries : Q * Q * Q * Q)
  : surface :=
  let '(b0, b1, b2, b3) := boundaries in
  let '(nx, ny) := shape data in
  {| x_coords := linspace 0 (b2 - b0) nx;
     y_coords := linspace 0 (b3 - b1) ny;
     dem_data := data |}.

(** An array: not empty, every row as long as the first, which is not
    empty. *)
Definition is_array (data : list (list Q)) : Prop :=
  (1 <= fst (shape data))%nat /\ (1 <= snd (shape data))%nat
  /\ Forall (fun row => List.length row = snd (shape data)) data.

(** Samples in strictly ascending order. *)
Definition ascending (samples : list Q) : Prop :=
  forall a b va vb, (a < b)%nat ->
    nth_error samples a = Some va -> nth_error samples b = Some vb -> (va < vb)%Q.


(** * Properties *)

(** ** Sanity checks of the built-ins *)

Example rgb_to_hex_red : rgb_to_hex (1%Q, 0%Q, 0%Q) = "#FF0000".
Proof. reflexivity. Qed.

Example rgb_to_hex_mixed : rgb_to_hex (1 # 2, 1 # 10, 199 # 200)%Q = "#7F19FD".
Proof. reflexivity. Qed.

Example hex_to_rgb_lower : hex_to_rgb "#00ff7f" = Ok (channel 0, channel 255, channel 127).
Proof. reflexivity. Qed.

Example hex_to_rgb_short : hex_to_rgb "#FFF" = Ok (0%Q, 1%Q, 0%Q).
Proof. reflexivity. Qed.

(** [lstrip('#')] takes every leading hash. *)
Example hex_to_rgb_two_hashes : hex_to_rgb "##FF0000" = Ok (channel 255, channel 0, channel 0).
Proof. reflexivity. Qed.

Example hex_to_rgb_not_hex : hex_to_rgb "GGGGGG" = Raise ValueError.
Proof. reflexivity. Qed.

Example str_examples : Py.str 0 = "0" /\ Py.str 1059 = "1059" /\ Py.str (-7) = "-7".
Proof. repeat split; reflexivity. Qed.

Example int16_forms :
  Py.int16 "0x1f" = Ok 31 /\ Py.int16 " +f" = Ok 15 /\ Py.int16 "-1" = Ok (-1)
  /\ Py.int16 "0x" = Raise ValueError /\ Py.int16 "1_f" = Ok 31
  /\ Py.int16 "_f" = Raise ValueError /\ Py.int16 "" = Raise ValueError.
Proof. repeat split; reflexivity. Qed.

Example split_strip_examples :
  Py.split "," "a, b,,c" = ["a"; " b"; ""; "c"]
  /\ Py.split "," "" = [""]
  /\ Py.strip "  a b  " = "a b"
  /\ Gui.names_of " A , ,B" = ["A"; "B"].
Proof. repeat split; reflexivity. Qed.

(** ** Colours: [rgb_to_hex] and [hex_to_rgb] *)

Section Colours.

Local Open Scope Q_scope.

(** A hex digit is no blank, sign, underscore, prefix letter or hash. *)
Lemma hex_val_plain (a : ascii) (v : Z) :
  Py.hex_val a = Some v ->
  Py.is_space a = false /\ Ascii.eqb a "-" = false /\ Ascii.eqb a "+" = false
  /\ Ascii.eqb a "_" = false /\ Ascii.eqb a "x" = false /\ Ascii.eqb a "X" = false
  /\ Ascii.eqb "#" a = false.
Proof.
  destruct a as [[] [] [] [] [] [] [] []]; vm_compute; intros H;
    try discriminate; repeat split; reflexivity.
Qed.

Lemma strip_two (a b : ascii) :
  Py.is_space a = false -> Py.is_space b = false ->
  Py.strip (String a (String b "")) = String a (String b "").
Proof.
  intros Ha Hb. unfold Py.strip, Py.rstrip_by, Py.rev.
  cbn [Py.lstrip_by]. rewrite Ha. cbn [Py.rev_onto Py.lstrip_by].
  rewrite Hb. reflexivity.
Qed.

(** [int(s, 16)] on two hex digits is their positional value. *)
Lemma int16_two_hex (a b : ascii) (va vb : Z) :
  Py.hex_val a = Some va -> Py.hex_val b = Some vb ->
  Py.int16 (String a (String b "")) = Ok (16 * va + vb)%Z.
Proof.
  intros Ha Hb.
  destruct (hex_val_plain a va Ha) as (Sa & Ma & Pa & Ua & _).
  destruct (hex_val_plain b vb Hb) as (Sb & _ & _ & Ub & Xb & XXb & _).
  unfold Py.int16. rewrite (strip_two a b Sa Sb).
  unfold Py.split_sign. rewrite Ma, Pa.
  rewrite Xb, XXb, andb_false_r.
  cbn [Py.digits_of]. rewrite Ua, Ha, Ub, Hb.
  unfold Py.apply_sign. f_equal; lia.
Qed.

Lemma hex_to_rgb_six (a1 a2 b1 b2 c1 c2 : ascii) (rest : string) :
  rest = String a1 (String a2 (String b1 (String b2 (String c1 (String c2 ""))))) ->
  forall s, Py.lstrip_char "#" s = rest ->
  hex_to_rgb s =
  (r <- Py.int16 (String a1 (String a2 "")) ;;
   g <- Py.int16 (String b1 (String b2 "")) ;;
   b <- Py.int16 (String c1 (String c2 "")) ;;
   Ok (channel r, channel g, channel b)).
Proof.
  intros -> s Hs. unfold hex_to_rgb. rewrite Hs. reflexivity.
Qed.

Lemma byte_check_all : forallb byte_check (map Z.of_nat (seq 0 256)) = true.
Proof. vm_compute. reflexivity. Qed.

Lemma byte_checked (n : Z) : (0 <= n <= 255)%Z -> byte_check n = true.
Proof.
  intros Hn. pose proof byte_check_all as H.
  rewrite forallb_forall in H. apply H.
  apply in_map_iff. exists (Z.to_nat n). split; [lia|].
  apply in_seq. lia.
Qed.

(** [f"{n:02X}"] on a byte: two upper-case hex digits that read back as [n]. *)
Lemma format_02X_byte (n : Z) :
  (0 <= n <= 255)%Z ->
  exists a b va vb,
    Py.format_02X n = String a (String b "")
    /\ upper_hex a = true /\ upper_hex b = true
    /\ Py.hex_val a = Some va /\ Py.hex_val b = Some vb
    /\ (16 * va + vb)%Z = n.
Proof.
  intros Hn. pose proof (byte_checked n Hn) as H. unfold byte_check in H.
  cbv zeta in H.
  set (a := Py.hex_digit (n / 16)) in *. set (b := Py.hex_digit (n mod 16)) in *.
  destruct (Py.hex_val a) as [va|] eqn:Ha;
    [|rewrite andb_false_r in H; discriminate].
  destruct (Py.hex_val b) as [vb|] eqn:Hb;
    [|rewrite andb_false_r in H; discriminate].
  repeat (apply andb_true_iff in H; destruct H as [H ?]).
  exists a, b, va, vb. repeat split; auto.
  - now apply String.eqb_eq.
  - lia.
Qed.

(** [int(q)] of a float in [0, 255] is its floor, a byte. *)
Lemma int_of_float_floor (q : Q) : 0 <= q -> Py.int_of_float q = Qfloor q.
Proof.
  intros Hq. unfold Py.int_of_float, Qfloor. destruct q as [n d]. cbn [Qnum Qden].
  assert (0 <= n)%Z by (unfold Qle in Hq; cbn in Hq; lia).
  apply Z.quot_div_nonneg; lia.
Qed.

Lemma channel_byte (r : Q) :
  0 <= r <= 1 ->
  let n := Py.int_of_float (r * 255) in
  (0 <= n <= 255)%Z /\ Qabs (channel n - r) <= 1 # 255.
Proof.
  intros [H0 H1] n.
  assert (Hq : 0 <= r * 255) by lra.
  assert (Hn : n = Qfloor (r * 255)) by (apply int_of_float_floor; exact Hq).
  pose proof (Qfloor_le (r * 255)) as Hlo.
  pose proof (Qlt_floor (r * 255)) as Hhi.
  rewrite <- Hn in Hlo, Hhi. rewrite inject_Z_plus in Hhi.
  change (inject_Z 1) with 1 in Hhi.
  assert (Hn0 : (0 <= n)%Z).
  { rewrite Hn. change 0%Z with (Qfloor 0). apply Qfloor_resp_le. exact Hq. }
  assert (Hn255 : (n <= 255)%Z).
  { apply Z.lt_succ_r. rewrite Zlt_Qlt. unfold Z.succ. rewrite inject_Z_plus.
    change (inject_Z 255) with 255. change (inject_Z 1) with 1.
    apply Qle_lt_trans with (r * 255); [exact Hlo | lra]. }
  split; [lia|].
  unfold channel, Qdiv.
  assert (E : / 255 == 1 # 255) by reflexivity.
  rewrite E. apply Qabs_Qle_condition. split; lra.
Qed.

Lemma upper_hex_not_hash (a : ascii) : upper_hex a = true -> Ascii.eqb "#" a = false.
Proof.
  destruct a as [[] [] [] [] [] [] [] []]; vm_compute; intros H;
    try discriminate; reflexivity.
Qed.

End Colours.

(** C7. For every normalized RGB triple (each channel in [0, 1]) the hex
    form written by [rgb_to_hex] is an upper-case [#RRGGBB] string, and
    [hex_to_rgb] reads it back to a triple within 1/255 of the original on
    every channel. *)
Theorem color_round_trip (r g b : Q) :
  (0 <= r <= 1)%Q -> (0 <= g <= 1)%Q -> (0 <= b <= 1)%Q ->
  is_RRGGBB (rgb_to_hex (r, g, b)) = true
  /\ exists r' g' b',
       hex_to_rgb (rgb_to_hex (r, g, b)) = Ok (r', g', b')
       /\ (Qabs (r' - r) <= 1 # 255)%Q
       /\ (Qabs (g' - g) <= 1 # 255)%Q
       /\ (Qabs (b' - b) <= 1 # 255)%Q.
Proof.
  intros Hr Hg Hb.
  destruct (channel_byte r Hr) as [Br Tr].
  destruct (channel_byte g Hg) as [Bg Tg].
  destruct (channel_byte b Hb) as [Bb Tb].
  cbv zeta in *.
  destruct (format_02X_byte _ Br) as (r1 & r2 & vr1 & vr2 & Fr & Ur1 & Ur2 & Vr1 & Vr2 & Er).
  destruct (format_02X_byte _ Bg) as (g1 & g2 & vg1 & vg2 & Fg & Ug1 & Ug2 & Vg1 & Vg2 & Eg).
  destruct (format_02X_byte _ Bb) as (b1 & b2 & vb1 & vb2 & Fb & Ub1 & Ub2 & Vb1 & Vb2 & Eb).
  assert (Hhex : rgb_to_hex (r, g, b)
                 = String "#" (String r1 (String r2 (String g1 (String g2
                     (String b1 (String b2 ""))))))).
  { unfold rgb_to_hex. rewrite Fr, Fg, Fb. reflexivity. }
  rewrite Hhex. split.
  - cbn [is_RRGGBB String.length Py.all_chars].
    rewrite Ur1, Ur2, Ug1, Ug2, Ub1, Ub2. reflexivity.
  - exists (channel (Py.int_of_float (r * 255))),
           (channel (Py.int_of_float (g * 255))),
           (channel (Py.int_of_float (b * 255))).
    split; [|auto].
    rewrite (hex_to_rgb_six r1 r2 g1 g2 b1 b2 _ eq_refl).
    + rewrite (int16_two_hex _ _ _ _ Vr1 Vr2), (int16_two_hex _ _ _ _ Vg1 Vg2),
        (int16_two_hex _ _ _ _ Vb1 Vb2).
      cbn [bind]. rewrite Er, Eg, Eb. reflexivity.
    + unfold Py.lstrip_char. cbn [Py.lstrip_by].
      rewrite (upper_hex_not_hash r1 Ur1). reflexivity.
Qed.

Lemma color_round_trip_witness :
  is_RRGGBB (rgb_to_hex (1 # 2, 1 # 10, 1)%Q) = true
  /\ exists r' g' b',
       hex_to_rgb (rgb_to_hex (1 # 2, 1 # 10, 1)%Q) = Ok (r', g', b')
       /\ (Qabs (r' - (1 # 2)) <= 1 # 255)%Q
       /\ (Qabs (g' - (1 # 10)) <= 1 # 255)%Q
       /\ (Qabs (b' - 1) <= 1 # 255)%Q.
Proof.
  apply (color_round_trip (1 # 2) (1 # 10) 1); split; unfold Qle; simpl; lia.
Defined.

(** C10. A text whose length, once its leading hashes are stripped, is not 6
    reads as the default green [0, 1, 0] and nothing is raised; six hex
    digits read as the three two-digit values, each divided by 255. *)
Theorem hex_to_rgb_default_or_channels (s : string) :
  (String.length (Py.lstrip_char "#" s) <> 6%nat -> hex_to_rgb s = Ok (0%Q, 1%Q, 0%Q))
  /\ (forall a1 a2 b1 b2 c1 c2 va1 va2 vb1 vb2 vc1 vc2,
        Py.lstrip_char "#" s
        = String a1 (String a2 (String b1 (String b2 (String c1 (String c2 ""))))) ->
        Py.hex_val a1 = Some va1 -> Py.hex_val a2 = Some va2 ->
        Py.hex_val b1 = Some vb1 -> Py.hex_val b2 = Some vb2 ->
        Py.hex_val c1 = Some vc1 -> Py.hex_val c2 = Some vc2 ->
        hex_to_rgb s = Ok (inject_Z (16 * va1 + va2) / 255,
                           inject_Z (16 * vb1 + vb2) / 255,
                           inject_Z (16 * vc1 + vc2) / 255)%Q).
Proof.
  split.
  - intros Hlen. unfold hex_to_rgb.
    destruct (String.length (Py.lstrip_char "#" s) =? 6)%nat eqn:E.
    + apply Nat.eqb_eq in E. contradiction.
    + reflexivity.
  - intros a1 a2 b1 b2 c1 c2 va1 va2 vb1 vb2 vc1 vc2 Hs A1 A2 B1 B2 C1 C2.
    rewrite (hex_to_rgb_six a1 a2 b1 b2 c1 c2 _ eq_refl s Hs).
    rewrite (int16_two_hex _ _ _ _ A1 A2), (int16_two_hex _ _ _ _ B1 B2),
      (int16_two_hex _ _ _ _ C1 C2).
    reflexivity.
Qed.

Lemma hex_to_rgb_default_or_channels_witness :
  hex_to_rgb "##12345" = Ok (0%Q, 1%Q, 0%Q)
  /\ hex_to_rgb "#1aF09c" = Ok (inject_Z 26 / 255, inject_Z 240 / 255, inject_Z 156 / 255)%Q.
Proof.
  split.
  - apply (proj1 (hex_to_rgb_default_or_channels "##12345")). vm_compute. discriminate.
  - apply (proj2 (hex_to_rgb_default_or_channels "#1aF09c")
             "1"%char "a"%char "F"%char "0"%char "9"%char "c"%char
             1 10 15 0 9 12); reflexivity.
Defined.

(** ** [lookup_station_coords] *)

Section Lookup.

Variable stations_dict : dict Gui.station.

Lemma first_named_resolve (st_name : string) :
  Gui.first_named st_name stations_dict = resolve st_name stations_dict.
Proof.
  unfold resolve. induction stations_dict as [|[st_id st_data] rest IH]; cbn.
  - reflexivity.
  - destruct (String.eqb (Gui.name st_data) st_name); [reflexivity | exact IH].
Qed.

Lemma lookup_from (station_names : list string) (acc : list point) :
  fold_left (fun coords st_name =>
               match Gui.first_named st_name stations_dict with
               | Some c => (coords ++ [c])%list
               | None => coords
               end) station_names acc
  = (acc ++ lookup_spec station_names stations_dict)%list.
Proof.
  revert acc. induction station_names as [|n names IH]; intros acc; cbn.
  - now rewrite app_nil_r.
  - rewrite IH, first_named_resolve.
    destruct (resolve n stations_dict); cbn; [now rewrite <- app_assoc | reflexivity].
Qed.

Lemma lookup_is_spec (station_names : list string) :
  Gui.lookup_station_coords station_names stations_dict
  = lookup_spec station_names stations_dict.
Proof. unfold Gui.lookup_station_coords. now rewrite lookup_from. Qed.

Lemma lookup_spec_length (station_names : list string) :
  List.length (lookup_spec station_names stations_dict)
  = List.length (filter (resolvable stations_dict) station_names).
Proof.
  unfold lookup_spec.
  induction station_names as [|n names IH]; cbn [flat_map filter]; [reflexivity|].
  rewrite length_app, IH. unfold resolvable at 2.
  destruct (resolve n stations_dict); reflexivity.
Qed.

(** [resolve] picks the first entry of that name. *)
Lemma resolve_first (st_name : string) (c : point) :
  resolve st_name stations_dict = Some c <->
  exists before st_id st_data after,
    stations_dict = (before ++ (st_id, st_data) :: after)%list
    /\ Gui.name st_data = st_name /\ Gui.coords st_data = c
    /\ Forall (fun e => Gui.name (snd e) <> st_name) before.
Proof.
  unfold resolve. induction stations_dict as [|[k v] rest IH]; cbn.
  - split; [discriminate|]. intros (b & ? & ? & ? & E & _). now destruct b.
  - destruct (String.eqb (Gui.name v) st_name) eqn:E; cbn.
    + apply String.eqb_eq in E. split.
      * intros [= <-]. exists [], k, v, rest. repeat split; auto.
      * intros ([|[k' v'] b] & i & d & a & H & Hn & Hc & Hall); cbn in H.
        -- injection H as -> -> ->. now rewrite Hc.
        -- injection H as -> -> ->. inversion Hall; subst. cbn in *. contradiction.
    + apply String.eqb_neq in E. rewrite IH. split.
      * intros (b & i & d & a & -> & Hn & Hc & Hall).
        exists ((k, v) :: b), i, d, a. repeat split; auto.
      * intros ([|[k' v'] b] & i & d & a & H & Hn & Hc & Hall); cbn in H.
        -- injection H as -> -> ->. contradiction.
        -- injection H as -> -> ->. inversion Hall; subst.
           exists b, i, d, a. repeat split; auto.
Qed.

End Lookup.

(** C9. [lookup_station_coords] returns, in the order of the given names,
    the coordinates of the first station (in the dict's iteration order)
    that carries each name, skips a name no station carries, and so returns
    as many coordinates as there are resolvable names; it is total, nothing
    is raised. *)
Theorem lookup_station_coords_spec
        (station_names : list string) (stations_dict : dict Gui.station) :
  Gui.lookup_station_coords station_names stations_dict
  = lookup_spec station_names stations_dict
  /\ List.length (Gui.lookup_station_coords station_names stations_dict)
     = List.length (filter (resolvable stations_dict) station_names)
  /\ (forall st_name c,
        resolve st_name stations_dict = Some c <->
        exists before st_id st_data after,
          stations_dict = (before ++ (st_id, st_data) :: after)%list
          /\ Gui.name st_data = st_name /\ Gui.coords st_data = c
          /\ Forall (fun e => Gui.name (snd e) <> st_name) before).
Proof.
  split; [apply lookup_is_spec|]. split.
  - rewrite lookup_is_spec. apply lookup_spec_length.
  - intros. apply resolve_first.
Qed.

(** ** Nearest-sample lookup *)

Section Argmin.

Local Open Scope Q_scope.

Lemma Qlt_bool_iff (a b : Q) : Qlt_bool a b = true <-> a < b.
Proof.
  unfold Qlt_bool. rewrite negb_true_iff. split.
  - intros H. apply Qnot_le_lt. intros Hle.
    apply Qle_bool_iff in Hle. congruence.
  - intros H. destruct (Qle_bool b a) eqn:E; [|reflexivity].
    apply Qle_bool_iff in E. exfalso. apply (Qlt_not_le _ _ H E).
Qed.

Lemma Qlt_bool_false (a b : Q) : Qlt_bool a b = false -> b <= a.
Proof.
  unfold Qlt_bool. rewrite negb_false_iff. apply Qle_bool_iff.
Qed.

Lemma argmin_from_first_min (a seen : list Q) (best_i : nat) (best : Q) :
  first_min seen best_i best ->
  exists v, first_min (seen ++ a)%list
                      (argmin_from a (List.length seen) best_i best) v.
Proof.
  revert seen best_i best.
  induction a as [|x a IH]; intros seen best_i best Hinv; cbn.
  - exists best. now rewrite app_nil_r.
  - destruct Hinv as (Hat & Hmin & Hfirst).
    assert (Hlt : (best_i < List.length seen)%nat)
      by (apply nth_error_Some; congruence).
    replace (seen ++ x :: a)%list with ((seen ++ [x]) ++ a)%list
      by (now rewrite <- app_assoc).
    replace (S (List.length seen)) with (List.length (seen ++ [x])%list)
      by (rewrite length_app; cbn; lia).
    destruct (Qlt_bool x best) eqn:E; apply IH.
    + apply Qlt_bool_iff in E. repeat split.
      * rewrite nth_error_app2, Nat.sub_diag; [reflexivity | lia].
      * intros k w Hk.
        destruct (Nat.lt_ge_cases k (List.length seen)) as [Hin|Hout].
        -- rewrite nth_error_app1 in Hk by exact Hin.
           apply Qlt_le_weak. apply Qlt_le_trans with best; [exact E | eauto].
        -- rewrite nth_error_app2 in Hk by exact Hout.
           destruct (k - List.length seen)%nat as [|m]; cbn in Hk.
           ++ injection Hk as <-. apply Qle_refl.
           ++ now destruct m.
      * intros k w Hk Hw. rewrite nth_error_app1 in Hw by exact Hk.
        apply Qlt_le_trans with best; [exact E | eauto].
    + apply Qlt_bool_false in E. repeat split.
      * rewrite nth_error_app1 by exact Hlt. exact Hat.
      * intros k w Hk.
        destruct (Nat.lt_ge_cases k (List.length seen)) as [Hin|Hout].
        -- rewrite nth_error_app1 in Hk by exact Hin. eauto.
        -- rewrite nth_error_app2 in Hk by exact Hout.
           destruct (k - List.length seen)%nat as [|m]; cbn in Hk.
           ++ injection Hk as <-. exact E.
           ++ now destruct m.
      * intros k w Hk Hw.
        rewrite nth_error_app1 in Hw by lia. eauto.
Qed.

(** [argmin] on a non-empty array: the first index of the minimum. *)
Lemma argmin_first_min (a : list Q) :
  a <> [] -> exists i v, argmin a = Ok i /\ first_min a i v.
Proof.
  destruct a as [|x a]; [congruence|]. intros _.
  destruct (argmin_from_first_min a [x] 0%nat x) as [v Hv].
  - repeat split.
    + intros [|[|k]] w Hk; cbn in Hk; try discriminate.
      injection Hk as <-. apply Qle_refl.
    + intros k w Hk. lia.
  - exists (argmin_from a 1%nat 0%nat x), v. split; [reflexivity | exact Hv].
Qed.

Lemma argmin_nearest (samples : list Q) (v : Q) :
  samples <> [] ->
  exists i, argmin (abs_diff samples v) = Ok i /\ nearest_index samples v i.
Proof.
  intros Hne. destruct (argmin_first_min (abs_diff samples v)) as (i & m & Hi & Hm).
  - unfold abs_diff. destruct samples; [congruence | discriminate].
  - exists i. split; [exact Hi|].
    destruct Hm as (Hat & Hmin & Hfirst). unfold abs_diff in *.
    rewrite nth_error_map in Hat.
    destruct (nth_error samples i) as [c|] eqn:Ec; [|discriminate].
    cbn [option_map] in Hat. injection Hat as <-.
    exists c. split; [exact Ec|]. split.
    + intros k c' Hk. apply (Hmin k). now rewrite nth_error_map, Hk.
    + intros k c' Hlt Hk. apply (Hfirst k); [exact Hlt|]. now rewrite nth_error_map, Hk.
Qed.

End Argmin.

Lemma index2_in_grid (d : surface) (i j : nat) :
  grid_ok d -> (i < List.length (x_coords d))%nat -> (j < List.length (y_coords d))%nat ->
  exists z, index2 (dem_data d) i j = Ok z.
Proof.
  intros [Hrows Hcols] Hi Hj. unfold index2.
  destruct (nth_error (dem_data d) i) as [cells|] eqn:Er.
  - assert (Hlen : List.length cells = List.length (y_coords d)).
    { rewrite Forall_forall in Hcols. apply Hcols. eapply nth_error_In; eauto. }
    destruct (nth_error cells j) as [z|] eqn:Ec; [now exists z|].
    apply nth_error_None in Ec. lia.
  - apply nth_error_None in Er. lia.
Qed.



(** The tie at x = 25 (equally far from 0 and 50) goes to index 0. *)
Example get_elevation_tie :
  Gui.get_elevation (Gui.init (Some demo_surface)) 25 70 = Ok 2%Q
  /\ Gui.get_elevation (Gui.init None) 25 70 = Ok 0%Q
  /\ Mountain.get_elevation (Mountain.init None) 25 70 = Raise AttributeError.
Proof. repeat split; reflexivity. Qed.

(** ** [clear_all] *)

(** C6. In every state [clear_all] empties the stations and the lines
    registry (and both tables) and puts both id counters back to 1, the
    value [__init__] gives them. *)
Theorem clear_all_resets (s : Gui.state) :
  Gui.stations (Gui.clear_all s) = []
  /\ Gui.lines (Gui.clear_all s) = []
  /\ Gui.next_station_id (Gui.clear_all s) = 1
  /\ Gui.next_line_id (Gui.clear_all s) = 1
  /\ Gui.station_table (Gui.clear_all s) = []
  /\ Gui.line_table (Gui.clear_all s) = []
  /\ Gui.clear_all s = Gui.init (Gui.dem s).
Proof.
  destruct s as [sts nsid lns nlid stt lnt d].
  unfold Gui.clear_all; cbn. repeat split.
Qed.

(** ** Dicts and loops *)

Section DictLemmas.

Context {V : Type}.
Implicit Types (d : dict V) (k : Z) (v : V).

Lemma dict_get_In d k v : dict_get k d = Some v -> In (k, v) d.
Proof.
  induction d as [|[k' v'] d IH]; cbn; [discriminate|].
  destruct (Z.eqb_spec k' k) as [->|Hne].
  - intros [= ->]. now left.
  - intros H. right. auto.
Qed.

Lemma dict_get_key d k v : dict_get k d = Some v -> In k (keys d).
Proof.
  intros H. apply dict_get_In in H. apply (in_map fst) in H. exact H.
Qed.


Lemma keys_dict_set_mem d k v : In k (keys d) -> keys (dict_set k v d) = keys d.
Proof.
  induction d as [|[k' v'] d IH]; cbn; [contradiction|].
  destruct (Z.eqb_spec k' k) as [->|Hne]; [reflexivity|].
  intros [Heq|Hin]; [contradiction|]. cbn. f_equal. now apply IH.
Qed.

Lemma dict_set_fresh d k v : ~ In k (keys d) -> dict_set k v d = (d ++ [(k, v)])%list.
Proof.
  induction d as [|[k' v'] d IH]; cbn; [reflexivity|].
  intros Hn. destruct (Z.eqb_spec k' k) as [->|Hne].
  - exfalso. apply Hn. now left.
  - f_equal. apply IH. intros Hin. apply Hn. now right.
Qed.

Lemma keys_dict_set d k v :
  keys (dict_set k v d) = keys d \/ (~ In k (keys d) /\ keys (dict_set k v d) = (keys d ++ [k])%list).
Proof.
  destruct (in_dec Z.eq_dec k (keys d)) as [Hin|Hn].
  - left. now apply keys_dict_set_mem.
  - right. split; [exact Hn|]. rewrite dict_set_fresh by exact Hn.
    unfold keys. now rewrite map_app.
Qed.

Lemma dict_get_set_same d k v : dict_get k (dict_set k v d) = Some v.
Proof.
  induction d as [|[k' v'] d IH]; cbn.
  - now rewrite Z.eqb_refl.
  - destruct (Z.eqb_spec k' k) as [->|Hne]; cbn.
    + now rewrite Z.eqb_refl.
    + destruct (Z.eqb_spec k' k); [contradiction | exact IH].
Qed.

Lemma keys_dict_del d k : keys (dict_del k d) = filter (fun k' => negb (k' =? k)) (keys d).
Proof.
  unfold dict_del, keys. induction d as [|[k' v'] d IH]; cbn; [reflexivity|].
  destruct (k' =? k); cbn; [exact IH | now f_equal].
Qed.


Lemma reg_step_refl (ks : list Z) (n : Z) : reg_step ks n ks n.
Proof. repeat split; auto; lia. Qed.

Lemma reg_step_trans (ks1 ks2 ks3 : list Z) (n1 n2 n3 : Z) :
  reg_step ks1 n1 ks2 n2 -> reg_step ks2 n2 ks3 n3 -> reg_step ks1 n1 ks3 n3.
Proof.
  intros (L1 & D1 & I1) (L2 & D2 & I2). repeat split; [lia | auto |].
  intros k Hk. destruct (I2 k Hk) as [H|H]; [|right; lia].
  destruct (I1 k H) as [H'|H']; [now left | right; lia].
Qed.

Lemma reg_step_eq (ks ks' : list Z) (n : Z) : ks' = ks -> reg_step ks n ks' n.
Proof. intros ->. apply reg_step_refl. Qed.

Lemma reg_step_set_mem d k v (n : Z) :
  In k (keys d) -> reg_step (keys d) n (keys (dict_set k v d)) n.
Proof. intros H. apply reg_step_eq. now apply keys_dict_set_mem. Qed.

Lemma reg_step_set_next d v (n : Z) :
  reg_step (keys d) n (keys (dict_set n v d)) (n + 1).
Proof.
  destruct (keys_dict_set d n v) as [E|[Hn E]]; rewrite E.
  - repeat split; [lia | auto | intros; now left].
  - repeat split; [lia | |].
    + intros Hnd. apply NoDup_app; [exact Hnd | repeat constructor; auto |].
      intros a Ha [<-|[]]. contradiction.
    + intros k Hk. apply in_app_or in Hk as [H|[<-|[]]]; [now left | right; lia].
Qed.

Lemma reg_step_del d k (n : Z) : reg_step (keys d) n (keys (dict_del k d)) n.
Proof.
  rewrite keys_dict_del. repeat split; [lia | apply NoDup_filter |].
  intros k' H. apply filter_In in H as [H _]. now left.
Qed.

Lemma numbered_nil : numbered (@nil (Z * V)).
Proof. reflexivity. Qed.

Lemma numbered_NoDup d : numbered d -> NoDup (keys d).
Proof.
  unfold numbered. intros ->. apply Finite.Injective_map_NoDup.
  - intros a b. apply Nat2Z.inj.
  - apply seq_NoDup.
Qed.

(** Setting the next number keeps a registry numbered. *)
Lemma numbered_set_next d v :
  numbered d -> numbered (dict_set (Z.of_nat (List.length d) + 1) v d).
Proof.
  unfold numbered. intros H.
  assert (Hn : ~ In (Z.of_nat (List.length d) + 1) (keys d)).
  { rewrite H. intros Hin. apply in_map_iff in Hin as (m & Hm & Hin).
    apply in_seq in Hin. lia. }
  rewrite dict_set_fresh by exact Hn.
  unfold keys in *. rewrite map_app, length_app, H. cbn [map fst List.length].
  rewrite Nat.add_1_r, seq_S, map_app. cbn [map]. do 2 f_equal. lia.
Qed.

End DictLemmas.

Lemma for_each_inv {A S : Type} (P : S -> Prop) (body : A -> S -> S * option exn)
      (l : list A) (s : S) :
  (forall a s0, P s0 -> P (fst (body a s0))) -> P s -> P (fst (for_each body l s)).
Proof.
  intros Hbody. revert s. induction l as [|a l IH]; intros s Hs; cbn; [exact Hs|].
  specialize (Hbody a s Hs). destruct (body a s) as [s' [e|]]; cbn in *; auto.
Qed.

Lemma fold_left_inv {A S : Type} (P : S -> Prop) (f : S -> A -> S) (l : list A) (s : S) :
  (forall a s0, P s0 -> P (f s0 a)) -> P s -> P (fold_left f l s).
Proof.
  intros Hf. revert s. induction l as [|a l IH]; intros s Hs; cbn; auto.
Qed.

(** ** [src/mountain.py]: ids come from counters that only grow *)

Ltac break_match :=
  match goal with
  | |- context [match ?x with _ => _ end] => destruct x eqn:?
  end.

Section MountainIds.

Context {FT : FloatText}.

Import Mountain.

Lemma ids_step_refl (s : state) : ids_step s s.
Proof. split; apply reg_step_refl. Qed.

Lemma ids_step_trans (s1 s2 s3 : state) :
  ids_step s1 s2 -> ids_step s2 s3 -> ids_step s1 s3.
Proof. intros [A B] [C D]. split; eapply reg_step_trans; eauto. Qed.

Lemma ids_step_station_table (s : state) (t : table) :
  ids_step s (set_station_table t s).
Proof. split; apply reg_step_refl. Qed.

Lemma ids_step_line_table (s : state) (t : table) :
  ids_step s (set_line_table t s).
Proof. split; apply reg_step_refl. Qed.

Lemma update_line_table_ids (s : state) : ids_step s (update_line_table s).
Proof. split; apply reg_step_refl. Qed.

Lemma update_line_actor_ids (lid : Z) (s : state) :
  ids_step s (fst (update_line_actor lid s)).
Proof.
  unfold update_line_actor. destruct (dict_get lid (train_lines s)) eqn:E; cbn.
  - split; [apply reg_step_refl|]. apply reg_step_set_mem. eapply dict_get_key; eauto.
  - apply ids_step_refl.
Qed.

Lemma update_all_lines_ids (s : state) : ids_step s (fst (update_all_lines s)).
Proof.
  unfold update_all_lines. apply for_each_inv; [|apply ids_step_refl].
  intros lid s0 H. eapply ids_step_trans; [exact H | apply update_line_actor_ids].
Qed.

Lemma delete_line_by_id_ids (lid : Z) (s : state) : ids_step s (delete_line_by_id lid s).
Proof.
  unfold delete_line_by_id. destruct (dict_mem lid (train_lines s)).
  - split; [apply reg_step_refl | apply reg_step_del].
  - apply ids_step_refl.
Qed.

Lemma unlink_station_keys (sid : Z) (sts : dict station) (items : dict line) :
  keys (fst (unlink_station sid sts items)) = keys items.
Proof.
  induction items as [|[lid ln] rest IH]; cbn; [reflexivity|].
  destruct (unlink_station sid sts rest) as [rest' to_remove]. cbn in IH.
  repeat break_match; cbn; now rewrite IH.
Qed.

Lemma point_picked_ids (picked : option point) (s : state) :
  ids_step s (fst (point_picked picked s)).
Proof.
  unfold point_picked. repeat break_match; cbn; try apply ids_step_refl.
  split; [apply reg_step_set_next | apply reg_step_refl].
Qed.

Lemma station_cell_changed_ids (row column : nat) (s : state) :
  ids_step s (fst (station_cell_changed row column s)).
Proof.
  unfold station_cell_changed.
  destruct (negb _); [apply ids_step_refl|].
  destruct (bind _ _) as [[[sid x] y]|]; [|apply ids_step_refl].
  destruct (get_elevation s x y) as [new_z|]; [|apply ids_step_refl].
  cbv zeta.
  set (s1 := set_station_table _ s).
  destruct (dict_get sid (stations s1)) eqn:E; [|apply ids_step_station_table].
  set (s2 := set_stations _ s1).
  assert (H2 : ids_step s s2).
  { split; [|apply reg_step_refl]. cbn. apply reg_step_set_mem.
    eapply dict_get_key; eauto. }
  pose proof (update_all_lines_ids s2) as H3.
  destruct (update_all_lines s2) as [s3 [e|]]; cbn in *;
    eapply ids_step_trans; eauto.
Qed.

Lemma delete_station_ids (selected : option nat) (s : state) :
  ids_step s (fst (delete_station selected s)).
Proof.
  unfold delete_station. destruct selected as [row|]; [|apply ids_step_refl].
  destruct (row_id (station_table s) row) as [sid|]; [|apply ids_step_refl].
  cbv zeta.
  set (s1 := set_station_table _ s).
  set (s2 := if dict_mem sid (stations s1) then _ else s1).
  assert (H2 : ids_step s s2).
  { subst s2. destruct (dict_mem sid (stations s1));
      [|apply ids_step_station_table].
    split; [apply reg_step_del | apply reg_step_refl]. }
  pose proof (unlink_station_keys sid (stations s2) (train_lines s2)) as Hk.
  destruct (unlink_station sid (stations s2) (train_lines s2)) as [lns to_remove].
  cbn [fst] in *.
  eapply ids_step_trans; [|apply update_line_table_ids].
  apply fold_left_inv.
  - intros lid s0 H. eapply ids_step_trans; [exact H | apply delete_line_by_id_ids].
  - eapply ids_step_trans; [exact H2|].
    split; [apply reg_step_refl | apply reg_step_eq; exact Hk].
Qed.

Lemma add_line_ids (dialog : option (list Z)) (c : rgb) (s : state) :
  ids_step s (fst (add_line dialog c s)).
Proof.
  unfold add_line. repeat break_match; cbn; try apply ids_step_refl.
  split; [apply reg_step_refl | apply reg_step_set_next].
Qed.

Lemma edit_line_ids (selected : option nat) (dialog : option (list Z)) (s : state) :
  ids_step s (fst (edit_line selected dialog s)).
Proof.
  unfold edit_line. repeat break_match; cbn; try apply ids_step_refl.
  split; [apply reg_step_refl|]. apply reg_step_set_mem. eapply dict_get_key; eauto.
Qed.

Lemma delete_line_ids (selected : option nat) (s : state) :
  ids_step s (fst (delete_line selected s)).
Proof.
  unfold delete_line. repeat break_match; cbn; try apply ids_step_refl.
  apply delete_line_by_id_ids.
Qed.

Lemma line_cell_changed_ids (row column : nat) (s : state) :
  ids_step s (fst (line_cell_changed row column s)).
Proof.
  unfold line_cell_changed.
  destruct (negb _); [apply ids_step_refl|].
  destruct (bind _ _) as [[lid new_ids]|]; [|apply ids_step_refl].
  destruct (_ <? _)%nat; [apply update_line_table_ids|].
  destruct (dict_get lid (train_lines s)) as [ln|] eqn:E; [|apply ids_step_refl].
  cbv zeta. set (s1 := set_train_lines _ s).
  assert (H1 : ids_step s s1).
  { split; [apply reg_step_refl|]. cbn. apply reg_step_set_mem.
    eapply dict_get_key; eauto. }
  pose proof (update_line_actor_ids lid s1) as H2.
  destruct (update_line_actor lid s1) as [s2 [e|]]; cbn in *;
    eapply ids_step_trans; eauto.
Qed.

Lemma handle_ids (e : event) (s : state) : ids_step s (step s e).
Proof.
  unfold step, handle. destruct e.
  - apply point_picked_ids.
  - destruct (column =? 0)%nat; [apply ids_step_refl|].
    eapply ids_step_trans; [|apply station_cell_changed_ids].
    apply ids_step_station_table.
  - apply delete_station_ids.
  - apply add_line_ids.
  - apply edit_line_ids.
  - apply delete_line_ids.
  - destruct (column =? 0)%nat; [apply ids_step_refl|].
    eapply ids_step_trans; [|apply line_cell_changed_ids].
    apply ids_step_line_table.
Qed.

Lemma run_ids (es : list event) (s : state) : ids_step s (run es s).
Proof.
  unfold run. apply fold_left_inv; [|apply ids_step_refl].
  intros e s0 H. eapply ids_step_trans; [exact H | apply handle_ids].
Qed.

End MountainIds.

(** ** [src/gui.py]: the registries are renumbered on every refresh *)

Section GuiIds.

Context {FT : FloatText}.

Import Gui.

Lemma counts_next {V : Type} (d : dict V) (n : Z) (v : V) :
  counts (d, n) -> counts (dict_set n v d, n + 1).
Proof.
  intros [Hn Hc]. cbn in *. subst n. split; cbn.
  - now apply numbered_set_next.
  - rewrite dict_set_fresh.
    + rewrite length_app. cbn. lia.
    + rewrite Hn. intros Hin. apply in_map_iff in Hin as (m & Hm & Hin).
      apply in_seq in Hin. lia.
Qed.

Lemma refresh_stations_row_counts (t : table) (row : nat) (acc : dict station * Z) :
  counts acc -> counts (refresh_stations_row t row acc).
Proof.
  intros H. unfold refresh_stations_row. destruct acc as [sts n].
  repeat break_match; try exact H. now apply counts_next.
Qed.

Lemma refresh_lines_row_counts (t : table) (sts : dict station) (row : nat)
      (acc : dict line * Z) :
  counts acc -> counts (fst (refresh_lines_row t sts row acc)).
Proof.
  intros H. unfold refresh_lines_row. destruct acc as [lns n].
  repeat break_match; try exact H. cbn [fst]. now apply counts_next.
Qed.

Lemma refresh_stations_numbered (s : state) :
  numbered (stations (refresh_stations_on_plot s))
  /\ lines (refresh_stations_on_plot s) = lines s.
Proof.
  split; [|reflexivity]. unfold refresh_stations_on_plot. cbn.
  apply (fold_left_inv counts).
  - intros row acc H. now apply refresh_stations_row_counts.
  - split; reflexivity.
Qed.

Lemma refresh_lines_numbered (s : state) :
  numbered (lines (fst (refresh_lines_on_plot s)))
  /\ stations (fst (refresh_lines_on_plot s)) = stations s.
Proof.
  unfold refresh_lines_on_plot.
  pose proof (for_each_inv counts (refresh_lines_row (line_table s) (stations s))
                (seq 0 (rowCount (line_table s))) ([], 1)) as H.
  destruct (for_each _ _ _) as [[lns n] e]. cbn in *. split; [|reflexivity].
  apply H.
  - intros row acc Hacc. now apply refresh_lines_row_counts.
  - split; reflexivity.
Qed.

Lemma refresh_lines_only_numbered (s : state) :
  numbered (stations s) -> all_numbered (fst (refresh_lines_only s)).
Proof.
  intros Hs. unfold refresh_lines_only.
  destruct (refresh_lines_numbered s) as [Hl Hst].
  destruct (refresh_lines_on_plot s) as [s' [e|]]; cbn in *;
    split; auto; now rewrite Hst.
Qed.

Lemma refresh_both_numbered (s : state) : all_numbered (fst (refresh_both s)).
Proof.
  unfold refresh_both.
  destruct (refresh_stations_numbered s) as [Hs _].
  destruct (refresh_lines_numbered (refresh_stations_on_plot s)) as [Hl Hst].
  destruct (refresh_lines_on_plot (refresh_stations_on_plot s)) as [s' [e|]];
    cbn in *; split; auto; now rewrite Hst.
Qed.

Lemma handle_numbered (e : event) (s : state) :
  all_numbered s -> all_numbered (step s e).
Proof.
  intros Hs. pose proof Hs as [Hst Hln]. unfold step, handle. destruct e.
  - unfold point_picked. repeat break_match; cbn [fst]; auto.
    apply refresh_both_numbered.
  - unfold station_table_cell_changed.
    repeat break_match; cbn [fst]; auto; try apply refresh_both_numbered;
      split; assumption.
  - unfold delete_station. destruct selected; cbn [fst]; auto.
    apply refresh_both_numbered.
  - unfold add_line. repeat break_match; cbn [fst]; auto.
    now apply refresh_lines_only_numbered.
  - unfold edit_line. repeat break_match; cbn [fst]; auto.
    now apply refresh_lines_only_numbered.
  - unfold delete_line. destruct selected; cbn [fst]; auto.
    now apply refresh_lines_only_numbered.
  - unfold line_table_cell_changed. now apply refresh_lines_only_numbered.
  - split; reflexivity.
  - unfold load_new_dem. repeat break_match; cbn [fst]; auto.
    apply refresh_both_numbered.
  - unfold import_data. repeat break_match; cbn [fst]; auto.
    + match goal with
      | H : refresh_lines_on_plot ?x = _ |- _ =>
          destruct (refresh_lines_numbered x) as [Hl Hs'];
          destruct (refresh_stations_numbered
                      (load_line_data l0 (load_station_data l s))) as [Hs'' _];
          rewrite H in *; cbn in *
      end.
      split; [now rewrite Hs' | exact Hl].
    + match goal with
      | H : refresh_lines_on_plot ?x = _ |- _ =>
          destruct (refresh_lines_numbered x) as [Hl Hs'];
          destruct (refresh_stations_numbered
                      (load_line_data l0 (load_station_data l s))) as [Hs'' _];
          rewrite H in *; cbn in *
      end.
      split; [now rewrite Hs' | exact Hl].
Qed.

Lemma run_numbered (es : list event) (s : state) :
  all_numbered s -> all_numbered (run es s).
Proof.
  intros Hs. unfold run. apply fold_left_inv; [|exact Hs].
  intros e s0 H. now apply handle_numbered.
Qed.

End GuiIds.

(** ** C3: ids within a session *)

(** C3, as the code has it. At every point of a session no two stations and no
    two lines share an id. In [src/mountain.py] every id in use was handed
    out by a counter that never decreases (there is no clear-all there), so
    an id below the counter that is absent, a deleted one in particular, is
    never in the registry again. In [src/gui.py] both registries are
    renumbered [1 .. n] whenever they are rebuilt from the tables. *)
Theorem ids_unique_and_fresh {FT : FloatText} (loaded : option surface)
        (mes mes' : list Mountain.event) (ges : list Gui.event) :
  let m := Mountain.run mes (Mountain.init loaded) in
  let m' := Mountain.run mes' m in
  let g := Gui.run ges (Gui.init loaded) in
  NoDup (keys (Mountain.stations m))
  /\ NoDup (keys (Mountain.train_lines m))
  /\ Forall (fun k => 1 <= k < Mountain.next_station_id m) (keys (Mountain.stations m))
  /\ Forall (fun k => 0 <= k < Mountain.next_line_id m) (keys (Mountain.train_lines m))
  /\ Mountain.next_station_id m <= Mountain.next_station_id m'
  /\ Mountain.next_line_id m <= Mountain.next_line_id m'
  /\ (forall k, k < Mountain.next_station_id m ->
                ~ In k (keys (Mountain.stations m)) ->
                ~ In k (keys (Mountain.stations m')))
  /\ (forall k, k < Mountain.next_line_id m ->
                ~ In k (keys (Mountain.train_lines m)) ->
                ~ In k (keys (Mountain.train_lines m')))
  /\ numbered (Gui.stations g) /\ NoDup (keys (Gui.stations g))
  /\ numbered (Gui.lines g) /\ NoDup (keys (Gui.lines g)).
Proof.
  intros m m' g.
  destruct (run_ids mes (Mountain.init loaded)) as [(_ & D1 & I1) (_ & D2 & I2)].
  destruct (run_ids mes' m) as [(L1 & _ & J1) (L2 & _ & J2)].
  fold m in D1, I1, D2, I2. fold m' in L1, J1, L2, J2.
  destruct (run_numbered ges (Gui.init loaded)) as [G1 G2];
    [split; apply numbered_nil|]. fold g in G1, G2.
  repeat split.
  - apply D1. constructor.
  - apply D2. constructor.
  - apply Forall_forall. intros k Hk. destruct (I1 k Hk) as [[]|H]. exact H.
  - apply Forall_forall. intros k Hk. destruct (I2 k Hk) as [[]|H]. exact H.
  - exact L1.
  - exact L2.
  - intros k Hlt Hout Hin. destruct (J1 k Hin) as [H|H]; [contradiction | lia].
  - intros k Hlt Hout Hin. destruct (J2 k Hin) as [H|H]; [contradiction | lia].
  - exact G1.
  - now apply numbered_NoDup.
  - exact G2.
  - now apply numbered_NoDup.
Qed.

(** Station 1 is deleted; the next station gets id 3, and 1 stays unused. *)
Lemma ids_unique_and_fresh_witness :
  ~ In 1 (keys (Mountain.stations
                  (Mountain.run (FT := Plain.text)
                     [Mountain.Pick (Some p3)]
                     (Mountain.run (FT := Plain.text)
                        [Mountain.Pick (Some p1); Mountain.Pick (Some p2);
                         Mountain.DeleteStation (Some 0%nat)]
                        (Mountain.init (Some demo_surface)))))).
Proof.
  destruct (ids_unique_and_fresh (FT := Plain.text) (Some demo_surface)
              [Mountain.Pick (Some p1); Mountain.Pick (Some p2);
               Mountain.DeleteStation (Some 0%nat)]
              [Mountain.Pick (Some p3)] [])
    as (_ & _ & _ & _ & _ & _ & H & _).
  apply (H 1).
  - vm_compute. reflexivity.
  - vm_compute. intros [H1|[]]. discriminate.
Defined.

(** In [src/gui.py] id 2 names "Station 2", is free once the first row is
    deleted (the registry is renumbered), and names "Station 3" after the
    next pick; id 1 passes from "Station 1" to "Station 2". *)
Lemma gui_station_id_reused :
  let s2 := Gui.run (FT := Plain.text)
              [Gui.Pick (Some p1); Gui.Pick (Some p2)] (Gui.init (Some demo_surface)) in
  let s3 := Gui.step (FT := Plain.text) s2 (Gui.DeleteStation (Some 0%nat)) in
  let s4 := Gui.step (FT := Plain.text) s3 (Gui.Pick (Some p3)) in
  option_map Gui.name (dict_get 2 (Gui.stations s2)) = Some "Station 2"
  /\ dict_get 2 (Gui.stations s3) = None
  /\ option_map Gui.name (dict_get 2 (Gui.stations s4)) = Some "Station 3"
  /\ option_map Gui.name (dict_get 1 (Gui.stations s2)) = Some "Station 1"
  /\ option_map Gui.name (dict_get 1 (Gui.stations s3)) = Some "Station 2".
Proof. vm_compute. repeat split. Qed.

(** ** C8: malformed text in an edited cell *)



Section Malformed.

Context {FT : FloatText}.



End Malformed.







(** ** Tables and loops over their rows *)

Lemma list_set_middle {A : Type} (l r : list A) (a b : A) :
  list_set (List.length l) b (l ++ a :: r)%list = (l ++ b :: r)%list.
Proof. induction l as [|x l IH]; cbn; [reflexivity | now rewrite IH]. Qed.

Lemma setItem_last (t : table) (done rest : list (option string)) (text : string) :
  setItem (List.length t) (List.length done) text (t ++ [done ++ None :: rest])%list
  = (t ++ [done ++ Some text :: rest])%list.
Proof.
  unfold setItem. rewrite nth_error_app2, Nat.sub_diag by lia. cbn [nth_error].
  now rewrite !list_set_middle.
Qed.

Lemma append_row_from (t : table) (texts : list string) (done : list (option string)) :
  snd (fold_left (fun '(col, t') text => (S col, setItem (rowCount t) col text t'))
                 texts
                 (List.length done,
                  (t ++ [done ++ repeat None (List.length texts)])%list))
  = (t ++ [done ++ map Some texts])%list.
Proof.
  revert done. induction texts as [|x texts IH]; intros done; cbn [fold_left].
  - reflexivity.
  - cbn [List.length repeat map]. unfold rowCount at 2. rewrite setItem_last.
    replace (done ++ Some x :: repeat None (List.length texts))%list
      with ((done ++ [Some x]) ++ repeat None (List.length texts))%list
      by (now rewrite <- app_assoc).
    replace (S (List.length done)) with (List.length (done ++ [Some x])%list)
      by (rewrite length_app; cbn; lia).
    rewrite IH. now rewrite <- app_assoc.
Qed.

(** Appending a row cell by cell gives the table with that row last. *)
Lemma append_row_app (texts : list string) (t : table) :
  append_row texts t = (t ++ [map Some texts])%list.
Proof.
  unfold append_row, insertRow_last. exact (append_row_from t texts []).
Qed.

Lemma item_app_old (t : table) (cells : list (option string)) (row column : nat) :
  (row < rowCount t)%nat -> item (t ++ [cells])%list row column = item t row column.
Proof. intros H. unfold item. now rewrite nth_error_app1. Qed.

Lemma item_app_new (t : table) (cells : list (option string)) (column : nat) :
  item (t ++ [cells])%list (rowCount t) column
  = match nth_error cells column with Some c => c | None => None end.
Proof.
  unfold item, rowCount. now rewrite nth_error_app2, Nat.sub_diag by lia.
Qed.

Lemma for_each_app {A S : Type} (body : A -> S -> S * option exn)
      (l1 l2 : list A) (s : S) :
  for_each body (l1 ++ l2)%list s
  = match for_each body l1 s with
    | (s', None) => for_each body l2 s'
    | (s', Some e) => (s', Some e)
    end.
Proof.
  revert s. induction l1 as [|a l1 IH]; intros s; cbn; [reflexivity|].
  destruct (body a s) as [s' [e|]]; [reflexivity | apply IH].
Qed.

Lemma for_each_ext {A S : Type} (body body' : A -> S -> S * option exn)
      (l : list A) (s : S) :
  (forall a s0, In a l -> body a s0 = body' a s0) ->
  for_each body l s = for_each body' l s.
Proof.
  revert s. induction l as [|a l IH]; intros s H; cbn; [reflexivity|].
  rewrite (H a s) by now left.
  destruct (body' a s) as [s' [e|]]; [reflexivity|].
  apply IH. intros b s0 Hb. apply H. now right.
Qed.

(** ** Text without commas *)

Lemma all_chars_lstrip (p q : ascii -> bool) (s : string) :
  Py.all_chars p s = true -> Py.all_chars p (Py.lstrip_by q s) = true.
Proof.
  induction s as [|c s IH]; cbn; [auto|].
  intros H. apply andb_true_iff in H as [Hc Hs].
  destruct (q c); [auto | cbn; now rewrite Hc, Hs].
Qed.

Lemma all_chars_rev_onto (p : ascii -> bool) (s acc : string) :
  Py.all_chars p s = true -> Py.all_chars p acc = true ->
  Py.all_chars p (Py.rev_onto s acc) = true.
Proof.
  revert acc. induction s as [|c s IH]; intros acc; cbn; [auto|].
  intros H Hacc. apply andb_true_iff in H as [Hc Hs].
  apply IH; [exact Hs | cbn; now rewrite Hc, Hacc].
Qed.

Lemma all_chars_strip (p : ascii -> bool) (s : string) :
  Py.all_chars p s = true -> Py.all_chars p (Py.strip s) = true.
Proof.
  intros H. unfold Py.strip, Py.rstrip_by, Py.rev.
  apply all_chars_rev_onto; [|reflexivity].
  apply all_chars_lstrip. apply all_chars_rev_onto; [|reflexivity].
  now apply all_chars_lstrip.
Qed.

Lemma split_no_sep (s : string) : no_comma s = true -> Py.split "," s = [s].
Proof.
  unfold no_comma. induction s as [|c s IH]; cbn; [reflexivity|].
  intros H. apply andb_true_iff in H as [Hc Hs].
  apply negb_true_iff in Hc. rewrite Hc, (IH Hs). reflexivity.
Qed.

(** A text without commas names at most one station. *)
Lemma names_of_no_comma (s : string) :
  no_comma s = true -> (List.length (Gui.names_of (Py.strip s)) <= 1)%nat.
Proof.
  intros H. unfold Gui.names_of.
  rewrite split_no_sep by (now apply all_chars_strip). cbn.
  destruct (Py.truthy _); cbn; lia.
Qed.

Lemma lookup_length_le (station_names : list string) (sts : dict Gui.station) :
  (List.length (Gui.lookup_station_coords station_names sts)
   <= List.length station_names)%nat.
Proof.
  rewrite lookup_is_spec, lookup_spec_length. apply filter_length_le.
Qed.

(** ** C5: a line with fewer than two stations *)

Section FewStations.

Import Gui.

Lemma refresh_lines_on_plot_loop (s : state) :
  refresh_lines_on_plot s
  = (set_lines (fst (fst (lines_loop (line_table s) (stations s)))) s,
     snd (lines_loop (line_table s) (stations s))).
Proof.
  unfold refresh_lines_on_plot, lines_loop.
  now destruct (for_each _ _ _) as [[lns n] e].
Qed.

Lemma refresh_lines_row_old (t : table) (cells : list (option string))
      (sts : dict station) (row : nat) (acc : dict line * Z) :
  (row < rowCount t)%nat ->
  refresh_lines_row (t ++ [cells])%list sts row acc = refresh_lines_row t sts row acc.
Proof.
  intros H. unfold refresh_lines_row. now rewrite !item_app_old.
Qed.

Lemma few_names (ids : list string) :
  (List.length ids < 2)%nat -> forallb no_comma ids = true ->
  (List.length (names_of (Py.strip (Py.join ", " ids))) <= 1)%nat.
Proof.
  intros Hlen Hnc. destruct ids as [|x [|y ids]]; cbn in Hlen; try lia.
  - cbn. lia.
  - cbn in Hnc. rewrite andb_true_r in Hnc. cbn [Py.join String.concat].
    now apply names_of_no_comma.
Qed.

(** A row written from fewer than two names adds no line. *)
Lemma refresh_lines_row_few (t : table) (sts : dict station)
      (line_name : string) (ids : list string) (c : rgb) (acc : dict line * Z) :
  (List.length ids < 2)%nat -> forallb no_comma ids = true ->
  refresh_lines_row (t ++ [map Some (line_cells (line_name, ids, c))])%list
                    sts (rowCount t) acc
  = (acc, None).
Proof.
  intros Hlen Hnc. unfold refresh_lines_row. destruct acc as [lns n].
  rewrite !item_app_new. cbn [line_cells map nth_error].
  destruct (negb _ || negb _); [reflexivity|].
  pose proof (few_names ids Hlen Hnc) as Hn.
  pose proof (lookup_length_le (names_of (Py.strip (Py.join ", " ids))) sts) as Hl.
  destruct (Nat.ltb_spec
              (List.length
                 (lookup_station_coords (names_of (Py.strip (Py.join ", " ids))) sts)) 2);
    [reflexivity | lia].
Qed.

Lemma lines_loop_few (t : table) (sts : dict station)
      (line_name : string) (ids : list string) (c : rgb) :
  (List.length ids < 2)%nat -> forallb no_comma ids = true ->
  lines_loop (t ++ [map Some (line_cells (line_name, ids, c))])%list sts
  = lines_loop t sts.
Proof.
  intros Hlen Hnc. unfold lines_loop, rowCount.
  rewrite length_app. cbn [List.length]. rewrite Nat.add_1_r, seq_S, for_each_app.
  cbn [Nat.add].
  rewrite (for_each_ext _ (refresh_lines_row t sts)).
  - destruct (for_each (refresh_lines_row t sts) _ _) as [acc [e|]]; [reflexivity|].
    cbn [for_each].
    change (List.length t) with (rowCount t).
    now rewrite refresh_lines_row_few.
  - intros row acc Hin. apply in_seq in Hin.
    apply refresh_lines_row_old. unfold rowCount. lia.
Qed.

Lemma gui_add_line_few (g : state) (dlg : line_editor) :
  (2 <= List.length (stations g))%nat ->
  (List.length (selected_list dlg) < 2)%nat ->
  forallb no_comma (selected_list dlg) = true ->
  add_line (Some dlg) g
  = (set_lines (lines (fst (refresh_lines_on_plot g)))
               (set_line_table
                  (line_table g ++ [map Some (line_cells (get_line_data dlg))])%list g),
     snd (refresh_lines_only g)).
Proof.
  intros Hst Hlen Hnc. unfold add_line.
  assert (E : (List.length (stations g) <? 2)%nat = false) by (apply Nat.ltb_ge; lia).
  rewrite E, append_row_app. unfold refresh_lines_only.
  rewrite !refresh_lines_on_plot_loop.
  cbn [line_table stations set_line_table set_lines fst snd lines].
  unfold get_line_data. rewrite (lines_loop_few _ _ _ _ _ Hlen Hnc).
  destruct (lines_loop (line_table g) (stations g)) as [[lns n] [e|]]; reflexivity.
Qed.

End FewStations.

Section UpToDate.

Context {FT : FloatText}.

Import Gui.

Lemma refresh_lines_up_to_date (s : state) : up_to_date (fst (refresh_lines_on_plot s)).
Proof.
  unfold up_to_date. rewrite !refresh_lines_on_plot_loop. reflexivity.
Qed.

Lemma refresh_lines_only_up_to_date (s : state) : up_to_date (fst (refresh_lines_only s)).
Proof.
  unfold refresh_lines_only. pose proof (refresh_lines_up_to_date s) as H.
  now destruct (refresh_lines_on_plot s) as [s' [e|]].
Qed.

Lemma refresh_both_up_to_date (s : state) : up_to_date (fst (refresh_both s)).
Proof.
  unfold refresh_both.
  pose proof (refresh_lines_up_to_date (refresh_stations_on_plot s)) as H.
  now destruct (refresh_lines_on_plot (refresh_stations_on_plot s)) as [s' [e|]].
Qed.

Lemma up_to_date_station_table (s : state) (t : table) :
  up_to_date s -> up_to_date (set_station_table t s).
Proof.
  unfold up_to_date. rewrite !refresh_lines_on_plot_loop. auto.
Qed.

Lemma handle_up_to_date (e : event) (s : state) :
  up_to_date s -> up_to_date (step s e).
Proof.
  intros Hs. unfold step, handle. destruct e.
  - unfold point_picked. repeat break_match; cbn [fst]; auto.
    apply refresh_both_up_to_date.
  - unfold station_table_cell_changed.
    repeat break_match; cbn [fst];
      try apply refresh_both_up_to_date; now apply up_to_date_station_table.
  - unfold delete_station. destruct selected; cbn [fst]; auto.
    apply refresh_both_up_to_date.
  - unfold add_line. repeat break_match; cbn [fst]; auto.
    apply refresh_lines_only_up_to_date.
  - unfold edit_line. repeat break_match; cbn [fst]; auto.
    apply refresh_lines_only_up_to_date.
  - unfold delete_line. destruct selected; cbn [fst]; auto.
    apply refresh_lines_only_up_to_date.
  - unfold line_table_cell_changed. apply refresh_lines_only_up_to_date.
  - reflexivity.
  - unfold load_new_dem. repeat break_match; cbn [fst]; auto.
    apply refresh_both_up_to_date.
  - unfold import_data. repeat break_match; cbn [fst]; auto;
      match goal with
      | H : refresh_lines_on_plot ?x = (?s', _) |- up_to_date ?s' =>
          pose proof (refresh_lines_up_to_date x) as Hx; now rewrite H in Hx
      end.
Qed.

Lemma run_up_to_date (es : list event) (loaded : option surface) :
  up_to_date (run es (init loaded)).
Proof.
  unfold run. apply fold_left_inv.
  - intros e s H. now apply handle_up_to_date.
  - reflexivity.
Qed.

End UpToDate.

(** C5, as the code has it. An attempt to create a line from fewer than two
    station references never changes the stations registry or the lines
    registry. In [src/mountain.py] it ends in a warning and nothing at all
    changes. In [src/gui.py] there is a warning only when fewer than two
    stations exist; otherwise the accepted dialog's row is appended to the
    line table without any warning, and the refresh that follows builds no
    line from it (the names holding no comma): the lines registry is what a
    refresh of the old table gives, which in every state of a session is the
    registry itself. *)
Theorem add_line_too_few {FT : FloatText}
        (m : Mountain.state) (g : Gui.state)
        (selected_ids : list Z) (new_color : rgb) (dlg : Gui.line_editor)
        (session : list Gui.event) (loaded : option surface) :
  ((List.length selected_ids < 2)%nat ->
   Mountain.add_line (Some selected_ids) new_color m = (m, Warned "Add Line"))
  /\ ((List.length (Gui.stations g) < 2)%nat ->
      Gui.add_line (Some dlg) g = (g, Warned "Add Line"))
  /\ ((2 <= List.length (Gui.stations g))%nat ->
      (List.length (Gui.selected_list dlg) < 2)%nat ->
      forallb no_comma (Gui.selected_list dlg) = true ->
      Gui.stations (fst (Gui.add_line (Some dlg) g)) = Gui.stations g
      /\ Gui.lines (fst (Gui.add_line (Some dlg) g))
         = Gui.lines (fst (Gui.refresh_lines_on_plot g))
      /\ (Gui.lines g = Gui.lines (fst (Gui.refresh_lines_on_plot g)) ->
          Gui.lines (fst (Gui.add_line (Some dlg) g)) = Gui.lines g)
      /\ Gui.line_table (fst (Gui.add_line (Some dlg) g))
         = (Gui.line_table g
              ++ [map Some (Gui.line_cells (Gui.get_line_data dlg))])%list
      /\ snd (Gui.add_line (Some dlg) g) = snd (Gui.refresh_lines_only g)
      /\ (forall title, snd (Gui.add_line (Some dlg) g) <> Warned title))
  /\ Gui.lines (Gui.run session (Gui.init loaded))
     = Gui.lines (fst (Gui.refresh_lines_on_plot (Gui.run session (Gui.init loaded)))).
Proof.
  split; [|split; [|split]]; [| | |apply run_up_to_date].
  - intros Hlen. unfold Mountain.add_line.
    apply Nat.ltb_lt in Hlen. rewrite Hlen.
    now destruct (List.length (Mountain.stations m) <? 2)%nat.
  - intros Hlen. unfold Gui.add_line. apply Nat.ltb_lt in Hlen. now rewrite Hlen.
  - intros Hst Hlen Hnc. rewrite (gui_add_line_few g dlg Hst Hlen Hnc).
    cbn [fst snd Gui.stations Gui.lines Gui.line_table Gui.set_lines Gui.set_line_table].
    split; [reflexivity|]. split; [reflexivity|].
    split; [intros H; symmetry; exact H|].
    split; [reflexivity|]. split; [reflexivity|].
    intros title. unfold Gui.refresh_lines_only.
    destruct (Gui.refresh_lines_on_plot g) as [s' [e|]]; discriminate.
Qed.

Lemma add_line_too_few_witness :
  Mountain.add_line (Some [1]) red demo_mountain = (demo_mountain, Warned "Add Line")
  /\ Gui.add_line (Some one_station_dialog) (Gui.init None)
     = (Gui.init None, Warned "Add Line")
  /\ Gui.lines (fst (Gui.add_line (Some one_station_dialog) demo_gui))
     = Gui.lines demo_gui.
Proof.
  split; [|split].
  - apply (proj1 (add_line_too_few (FT := Plain.text) demo_mountain demo_gui [1] red
                    one_station_dialog [] None)).
    simpl. lia.
  - apply (proj1 (proj2 (add_line_too_few (FT := Plain.text) demo_mountain
                           (Gui.init None) [1] red one_station_dialog [] None))).
    simpl. lia.
  - destruct (proj1 (proj2 (proj2 (add_line_too_few (FT := Plain.text) demo_mountain
                                     demo_gui [1] red one_station_dialog [] None))))
      as (_ & _ & H & _).
    + vm_compute. lia.
    + simpl. lia.
    + reflexivity.
    + apply H. vm_compute. reflexivity.
Defined.

(** With three stations in place, the line editor is accepted with one
    station selected: [add_line] shows no warning and the row stays in the
    line table (from where it would be saved). *)
Lemma gui_add_line_single_station_accepted :
  snd (Gui.add_line (Some one_station_dialog) demo_gui) = Done
  /\ Gui.line_table (fst (Gui.add_line (Some one_station_dialog) demo_gui))
     = (Gui.line_table demo_gui
          ++ [[Some "L2"; Some "Station 1"; Some "#FF0000"]])%list
  /\ rowCount (Gui.line_table (fst (Gui.add_line (Some one_station_dialog) demo_gui)))
     = S (rowCount (Gui.line_table demo_gui)).
Proof. vm_compute. repeat split. Qed.

(** ** C2: deleting a station *)

Section MountainDelete.

Import Mountain.




Lemma dict_del_absent {V : Type} (k : Z) (d : dict V) :
  dict_mem k d = false -> dict_del k d = d.
Proof.
  unfold dict_mem, dict_del. induction d as [|[k' v] d IH]; cbn; [reflexivity|].
  destruct (Z.eqb_spec k' k) as [->|Hne]; [discriminate|].
  intros H. cbn. f_equal. now apply IH.
Qed.

Lemma delete_line_by_id_lines (lid : Z) (s : state) :
  train_lines (delete_line_by_id lid s) = dict_del lid (train_lines s)
  /\ stations (delete_line_by_id lid s) = stations s.
Proof.
  unfold delete_line_by_id. destruct (dict_mem lid (train_lines s)) eqn:E.
  - split; reflexivity.
  - split; [now rewrite dict_del_absent | reflexivity].
Qed.







End MountainDelete.

Section GuiDelete.

Context {FT : FloatText}.

Import Gui.

Lemma dict_set_In {V : Type} (k : Z) (v : V) (d : dict V) (e : Z * V) :
  In e (dict_set k v d) -> e = (k, v) \/ In e d.
Proof.
  induction d as [|[k' v'] d IH]; cbn.
  - intros [H|[]]. now left.
  - destruct (k' =? k); cbn.
    + intros [H|H]; [now left | right; now right].
    + intros [H|H]; [right; now left|]. destruct (IH H); [now left | right; now right].
Qed.

(** One turn of the loop, read through [row_line]. *)
Lemma refresh_lines_row_spec (t : table) (sts : dict station) (row : nat)
      (lns : dict line) (n : Z) :
  refresh_lines_row t sts row (lns, n)
  = match row_line t sts row with
    | None => ((lns, n), None)
    | Some (line_name, st_names, color_text) =>
        match hex_to_rgb color_text with
        | Raise e => ((lns, n), Some e)
        | Ok c =>
            ((dict_set n {| line_name := line_name; station_ids := st_names;
                            line_actor :=
                              build_line_actor (lookup_station_coords st_names sts)
                                               (Some c);
                            color := c |} lns,
              n + 1), None)
        end
    end.
Proof.
  unfold refresh_lines_row, row_line.
  destruct (item t row 0) as [a|]; [|reflexivity].
  destruct (item t row 1) as [b|]; [|reflexivity].
  destruct (item t row 2) as [c|]; [|reflexivity].
  cbv zeta.
  destruct (Py.truthy (Py.strip a)); cbn [negb orb andb]; [|reflexivity].
  destruct (Py.truthy (Py.strip b)); cbn [negb orb andb]; [|reflexivity].
  set (len := List.length _).
  destruct (Nat.ltb_spec len 2), (Nat.leb_spec 2 len); try lia; reflexivity.
Qed.

Lemma row_line_resolves (t : table) (sts : dict station) (row : nat)
      (line_name : string) (st_names : list string) (color_text : string) :
  row_line t sts row = Some (line_name, st_names, color_text) ->
  (2 <= List.length (lookup_station_coords st_names sts))%nat.
Proof.
  unfold row_line. repeat break_match; try discriminate.
  intros [= <- <- <-].
  match goal with H : (_ && _ && _) = true |- _ =>
    apply andb_true_iff in H as [_ H]; now apply Nat.leb_le in H end.
Qed.

(** Every line the loop builds is the line of a row. *)
Lemma lines_loop_from_rows (t : table) (sts : dict station) :
  forall e, In e (fst (fst (lines_loop t sts))) -> from_row t sts (snd e).
Proof.
  unfold lines_loop.
  apply (for_each_inv
           (fun acc => forall e, In e (fst acc) -> from_row t sts (snd e))).
  - intros row [lns n] Hacc. rewrite refresh_lines_row_spec.
    destruct (row_line t sts row) as [[[line_name st_names] color_text]|] eqn:E;
      [|exact Hacc].
    destruct (hex_to_rgb color_text) as [c|] eqn:Ec; [|exact Hacc].
    cbn [fst]. intros e He. apply dict_set_In in He as [-> | He]; [|now apply Hacc].
    cbn [snd]. exists row, color_text. cbn.
    repeat split; auto. eapply row_line_resolves; eauto.
  - intros e [].
Qed.




End GuiDelete.




(** * Further properties of the code *)

(** ** Ids as text: [str] and [int] *)

Section IdText.

Lemma dec_digit_facts (d : Z) :
  0 <= d < 10 ->
  Py.digit_val (Py.dec_digit d) = Some d
  /\ Ascii.eqb (Py.dec_digit d) "_" = false
  /\ Py.is_digit (Py.dec_digit d) = true.
Proof.
  intros H.
  assert (C : d = 0 \/ d = 1 \/ d = 2 \/ d = 3 \/ d = 4 \/ d = 5 \/ d = 6 \/ d = 7
              \/ d = 8 \/ d = 9) by lia.
  repeat (destruct C as [-> | C]); try subst d; repeat split; reflexivity.
Qed.

Lemma is_digit_plain (c : ascii) :
  Py.is_digit c = true ->
  Py.is_space c = false /\ Ascii.eqb c "-" = false /\ Ascii.eqb c "+" = false.
Proof.
  destruct c as [[] [] [] [] [] [] [] []]; vm_compute; intros H;
    try discriminate; repeat split; reflexivity.
Qed.

(** Reading back the digits written for [n] continues from [a * 10 ^ k + n]. *)
Lemma digits_onto_read (fuel : nat) :
  forall (n : Z) (acc : string) (a : Z) (b : bool),
    0 <= n < 10 ^ (Z.of_nat fuel + 1) ->
    exists k, 0 <= k
              /\ Py.digits_of Py.digit_val 10 (Py.digits_onto Py.dec_digit 10 fuel n acc) a b
                 = Py.digits_of Py.digit_val 10 acc (a * 10 ^ k + n) true.
Proof.
  induction fuel as [|fuel IH]; intros n acc a b Hn.
  - assert (Hd : 0 <= n < 10) by (cbn in Hn; lia).
    assert (Hm : n mod 10 = n) by (apply Z.mod_small; lia).
    destruct (dec_digit_facts n Hd) as (Hv & Hu & _).
    exists 1. split; [lia|]. cbn [Py.digits_onto Py.digits_of].
    rewrite Hm, Hu, Hv. f_equal. lia.
  - assert (Hmod : 0 <= n mod 10 < 10) by (apply Z.mod_pos_bound; lia).
    destruct (dec_digit_facts _ Hmod) as (Hv & Hu & _).
    cbn [Py.digits_onto]. destruct (Z.eqb_spec (n / 10) 0) as [Hz|Hnz].
    + exists 1. split; [lia|]. cbn [Py.digits_of]. rewrite Hu, Hv. f_equal.
      pose proof (Z.div_mod n 10). lia.
    + assert (Hq : 0 <= n / 10 < 10 ^ (Z.of_nat fuel + 1)).
      { split; [apply Z.div_pos; lia|].
        apply Z.div_lt_upper_bound; [lia|].
        replace (Z.of_nat (S fuel) + 1) with (Z.succ (Z.of_nat fuel + 1)) in Hn by lia.
        rewrite Z.pow_succ_r in Hn by lia. lia. }
      destruct (IH (n / 10) (String (Py.dec_digit (n mod 10)) acc) a b Hq)
        as (k & Hk & E).
      exists (k + 1). split; [lia|]. rewrite E. cbn [Py.digits_of].
      rewrite Hu, Hv. f_equal. rewrite Z.pow_add_r by lia.
      pose proof (Z.div_mod n 10). lia.
Qed.

Lemma digits_onto_all_digits (fuel : nat) :
  forall (n : Z) (acc : string),
    0 <= n -> Py.all_chars Py.is_digit acc = true ->
    Py.all_chars Py.is_digit (Py.digits_onto Py.dec_digit 10 fuel n acc) = true.
Proof.
  induction fuel as [|fuel IH]; intros n acc Hn Hacc;
    assert (Hmod : 0 <= n mod 10 < 10) by (apply Z.mod_pos_bound; lia);
    destruct (dec_digit_facts _ Hmod) as (_ & _ & Hd); cbn [Py.digits_onto].
  - cbn. now rewrite Hd, Hacc.
  - destruct (n / 10 =? 0).
    + cbn. now rewrite Hd, Hacc.
    + apply IH; [apply Z.div_pos; lia|]. cbn. now rewrite Hd, Hacc.
Qed.

Lemma fuel_enough (n : Z) : 0 <= n -> n < 10 ^ (Z.of_nat (Z.to_nat (Z.log2 n)) + 1).
Proof.
  intros Hn. rewrite Z2Nat.id by apply Z.log2_nonneg.
  destruct (Z.eq_dec n 0) as [->|Hne]; [reflexivity|].
  destruct (Z.log2_spec n) as [_ Hlt]; [lia|].
  apply Z.lt_le_trans with (2 ^ Z.succ (Z.log2 n)); [exact Hlt|].
  unfold Z.succ. apply Z.pow_le_mono_l. lia.
Qed.

Lemma rev_onto_twice (s a b : string) :
  Py.rev_onto (Py.rev_onto s a) b = Py.rev_onto a (s ++ b).
Proof.
  revert a b. induction s as [|c s IH]; intros a b; cbn; [reflexivity|].
  rewrite IH. reflexivity.
Qed.

Lemma append_empty (s : string) : (s ++ "")%string = s.
Proof. induction s as [|c s IH]; cbn; [reflexivity | now rewrite IH]. Qed.

Lemma lstrip_head (p : ascii -> bool) (c : ascii) (s : string) :
  p c = false -> Py.lstrip_by p (String c s) = String c s.
Proof. intros H. cbn. now rewrite H. Qed.

(** [strip] leaves a text alone that starts and ends with no blank. *)
Lemma strip_no_blank (s : string) :
  Py.all_chars (fun c => negb (Py.is_space c)) s = true -> Py.strip s = s.
Proof.
  intros H. unfold Py.strip, Py.rstrip_by, Py.rev.
  assert (L : forall t, Py.all_chars (fun c => negb (Py.is_space c)) t = true ->
                        Py.lstrip_by Py.is_space t = t).
  { intros [|c t] Ht; [reflexivity|]. cbn in Ht.
    apply andb_true_iff in Ht as [Hc _]. apply negb_true_iff in Hc.
    now apply lstrip_head. }
  rewrite (L s H). rewrite L by (apply all_chars_rev_onto; [exact H | reflexivity]).
  rewrite rev_onto_twice. cbn. apply append_empty.
Qed.

Lemma all_chars_impl (p q : ascii -> bool) (s : string) :
  (forall c, p c = true -> q c = true) ->
  Py.all_chars p s = true -> Py.all_chars q s = true.
Proof.
  intros Hpq. induction s as [|c s IH]; cbn; [auto|].
  intros H. apply andb_true_iff in H as [Hc Hs]. now rewrite (Hpq c Hc), IH.
Qed.

Lemma digits_no_blank (s : string) :
  Py.all_chars Py.is_digit s = true ->
  Py.all_chars (fun c => negb (Py.is_space c)) s = true.
Proof.
  apply all_chars_impl. intros c Hc.
  destruct (is_digit_plain c Hc) as (Hs & _). now rewrite Hs.
Qed.

Lemma split_sign_digits (s : string) :
  Py.all_chars Py.is_digit s = true -> Py.split_sign s = (false, s).
Proof.
  destruct s as [|c s]; [reflexivity|]. cbn [Py.all_chars].
  intros H. apply andb_true_iff in H as [Hc _].
  destruct (is_digit_plain c Hc) as (_ & Hm & Hp). cbn. now rewrite Hm, Hp.
Qed.

Lemma nat_digits_read (n : Z) :
  0 <= n ->
  Py.all_chars Py.is_digit (Py.nat_digits Py.dec_digit 10 n) = true
  /\ Py.digits_of Py.digit_val 10 (Py.nat_digits Py.dec_digit 10 n) 0 false = Some n.
Proof.
  intros Hn. unfold Py.nat_digits. split.
  - now apply digits_onto_all_digits.
  - destruct (digits_onto_read (Z.to_nat (Z.log2 n)) n "" 0 false) as (k & Hk & E).
    + split; [exact Hn | now apply fuel_enough].
    + rewrite E. cbn. reflexivity.
Qed.

(** [int(str(n)) == n] for every integer. *)
Lemma int10_str (n : Z) : Py.int10 (Py.str n) = Ok n.
Proof.
  unfold Py.str. destruct (Z.ltb_spec n 0) as [Hneg|Hpos].
  - destruct (nat_digits_read (- n)) as [Hd Hr]; [lia|].
    unfold Py.int10. rewrite strip_no_blank.
    + cbn [Py.split_sign]. change (Ascii.eqb "-" "-") with true. cbv iota.
      rewrite Hr. cbn. f_equal. lia.
    + cbn. now apply digits_no_blank.
  - destruct (nat_digits_read n Hpos) as [Hd Hr].
    unfold Py.int10. rewrite strip_no_blank by (now apply digits_no_blank).
    rewrite split_sign_digits by exact Hd. rewrite Hr. reflexivity.
Qed.

End IdText.

(** ** [src/mountain.py]: the tables show the registries *)

(** Projections of a state that a handler has just built. *)
Ltac fields :=
  cbn [fst snd Mountain.stations Mountain.train_lines Mountain.next_station_id
       Mountain.next_line_id Mountain.station_table Mountain.line_table Mountain.dem
       Mountain.set_stations Mountain.set_train_lines Mountain.set_next_station_id
       Mountain.set_next_line_id Mountain.set_station_table Mountain.set_line_table
       Mountain.update_line_table].

Section MountainTables.

Context {FT : FloatText}.

Import Mountain.

Lemma item_id_column (t : table) (row : nat) :
  item t row 0 = match nth_error (id_column t) row with
                 | Some c => c
                 | None => None
                 end.
Proof.
  unfold item, id_column. rewrite nth_error_map.
  destruct (nth_error t row) as [[|c cells]|]; reflexivity.
Qed.

Lemma mirrors_row_id (ks : list Z) (t : table) (row : nat) :
  mirrors ks t ->
  row_id t row = match nth_error ks row with
                 | Some k => Ok k
                 | None => Raise AttributeError
                 end.
Proof.
  intros H. unfold row_id, cell_text. rewrite item_id_column, H, nth_error_map.
  destruct (nth_error ks row) as [k|]; cbn; [apply int10_str | reflexivity].
Qed.

Lemma id_column_append (texts : list string) (x : string) (t : table) :
  id_column (append_row (x :: texts) t) = (id_column t ++ [Some x])%list.
Proof. rewrite append_row_app. unfold id_column. now rewrite map_app. Qed.

Lemma list_set_head {A : Type} (n : nat) (a : A) (l : list A) :
  n <> 0%nat ->
  match list_set n a l with c :: _ => Some c | [] => None end
  = match l with c :: _ => Some c | [] => None end.
Proof. destruct l as [|b l], n as [|n]; cbn; congruence. Qed.

Lemma id_column_setItem (row column : nat) (text : string) (t : table) :
  column <> 0%nat -> id_column (setItem row column text t) = id_column t.
Proof.
  intros Hc. unfold setItem. destruct (nth_error t row) as [cells|] eqn:E; [|reflexivity].
  unfold id_column. revert row E. induction t as [|r t IH]; intros [|row] E; cbn in *;
    try discriminate.
  - injection E as ->. f_equal.
    destruct cells as [|c cells], column as [|column]; cbn; congruence.
  - f_equal. now apply IH.
Qed.

Lemma id_column_removeRow (row : nat) (t : table) :
  id_column (removeRow row t) = list_drop row (id_column t).
Proof.
  unfold removeRow, id_column. revert row.
  induction t as [|r t IH]; intros [|row]; cbn; try reflexivity. now rewrite IH.
Qed.

Lemma list_drop_map {A B : Type} (f : A -> B) (n : nat) (l : list A) :
  list_drop n (map f l) = map f (list_drop n l).
Proof.
  revert n. induction l as [|a l IH]; intros [|n]; cbn; try reflexivity. now rewrite IH.
Qed.

(** Deleting the key that stands at [row] drops position [row]. *)
Lemma keys_dict_del_at {V : Type} (d : dict V) (row : nat) (k : Z) :
  NoDup (keys d) -> nth_error (keys d) row = Some k ->
  keys (dict_del k d) = list_drop row (keys d).
Proof.
  rewrite keys_dict_del. generalize (keys d). clear d. intros ks.
  revert row. induction ks as [|k' ks IH]; intros [|row] Hnd E; cbn in *;
    try discriminate; inversion Hnd as [|? ? Hk Hks]; subst.
  - injection E as ->. rewrite Z.eqb_refl. cbn.
    clear - Hk. induction ks as [|a ks IH]; cbn; [reflexivity|].
    destruct (Z.eqb_spec a k) as [->|Hne]; cbn.
    + exfalso. apply Hk. now left.
    + f_equal. apply IH. intros H. apply Hk. now right.
  - destruct (Z.eqb_spec k' k) as [->|Hne]; cbn.
    + exfalso. apply Hk. eapply nth_error_In; eauto.
    + f_equal. now apply IH.
Qed.

Lemma update_line_table_mirror (s : state) :
  mirrors (keys (train_lines s)) (line_table (update_line_table s)).
Proof.
  unfold update_line_table, mirrors. cbn [line_table set_line_table].
  assert (G : forall (lns : dict line) (t : table),
             id_column
               (fold_left (fun t '(lid, ln) =>
                             append_row [Py.str lid;
                                         Py.join ", " (map Py.str (station_ids ln))] t)
                          lns t)
             = (id_column t ++ map (fun k => Some (Py.str k)) (keys lns))%list).
  { induction lns as [|[lid ln] lns IH]; intros t; cbn [fold_left keys map fst].
    - now rewrite app_nil_r.
    - rewrite IH, id_column_append, <- app_assoc. reflexivity. }
  rewrite G. reflexivity.
Qed.

(** What [update_all_lines] leaves alone. *)
Lemma update_all_lines_frame (s : state) :
  stations (fst (update_all_lines s)) = stations s
  /\ station_table (fst (update_all_lines s)) = station_table s
  /\ line_table (fst (update_all_lines s)) = line_table s
  /\ keys (train_lines (fst (update_all_lines s))) = keys (train_lines s)
  /\ next_station_id (fst (update_all_lines s)) = next_station_id s.
Proof.
  unfold update_all_lines.
  apply (for_each_inv
           (fun s0 => stations s0 = stations s
                      /\ station_table s0 = station_table s
                      /\ line_table s0 = line_table s
                      /\ keys (train_lines s0) = keys (train_lines s)
                      /\ next_station_id s0 = next_station_id s)).
  - intros lid s0 (A & B & C & D & E). unfold update_line_actor.
    destruct (dict_get lid (train_lines s0)) eqn:G; fields; [|auto].
    repeat split; auto. rewrite keys_dict_set_mem; [exact D|].
    eapply dict_get_key; eauto.
  - repeat split.
Qed.

Lemma ids_ok_init (loaded : option surface) : ids_ok (init loaded).
Proof. repeat split; try constructor; intros k []. Qed.

Lemma ids_ok_step (s s' : state) : ids_ok s -> ids_step s s' -> ids_ok s'.
Proof.
  intros (N1 & N2 & B1 & B2) [(L1 & D1 & I1) (L2 & D2 & I2)].
  repeat split; auto.
  - intros k Hk. destruct (I1 k Hk) as [H|H]; [specialize (B1 k H)|]; lia.
  - intros k Hk. destruct (I2 k Hk) as [H|H]; [specialize (B2 k H)|]; lia.
Qed.

Lemma keys_dict_set_next {V : Type} (d : dict V) (n : Z) (v : V) :
  (forall k, In k (keys d) -> k < n) -> keys (dict_set n v d) = (keys d ++ [n])%list.
Proof.
  intros H. rewrite dict_set_fresh.
  - unfold keys. now rewrite map_app.
  - intros Hin. specialize (H n Hin). lia.
Qed.

Lemma point_picked_mirror (picked : option point) (s : state) :
  ids_ok s -> table_mirror s -> table_mirror (fst (point_picked picked s)).
Proof.
  intros (_ & _ & B1 & _) [M1 M2]. unfold point_picked.
  repeat break_match; cbn [fst]; try (split; assumption).
  split; fields; [|exact M2]. unfold mirrors in *.
  rewrite id_column_append, keys_dict_set_next by exact B1.
  rewrite map_app, M1. reflexivity.
Qed.

Lemma station_cell_changed_mirror (row column : nat) (s : state) :
  table_mirror s -> table_mirror (fst (station_cell_changed row column s)).
Proof.
  intros [M1 M2]. unfold station_cell_changed.
  destruct (negb _); [split; assumption|].
  destruct (bind _ _) as [[[sid x] y]|]; [|split; assumption].
  destruct (get_elevation s x y) as [new_z|]; [|split; assumption].
  cbv zeta. set (s1 := set_station_table _ s).
  assert (M1' : mirrors (keys (stations s1)) (station_table s1)).
  { unfold mirrors in *. subst s1. fields.
    now rewrite id_column_setItem by discriminate. }
  destruct (dict_get sid (stations s1)) eqn:E; [|split; assumption].
  set (s2 := set_stations _ s1).
  destruct (update_all_lines_frame s2) as (A & B & C & D & _).
  assert (Hfst : table_mirror (fst (update_all_lines s2))).
  { split; unfold mirrors in *.
    - rewrite A, B. subst s2. fields. rewrite keys_dict_set_mem; [exact M1'|].
      eapply dict_get_key; eauto.
    - rewrite C, D. exact M2. }
  now destruct (update_all_lines s2) as [s3 [e|]].
Qed.

Lemma delete_line_by_id_mirror (lid : Z) (s : state) :
  table_mirror s -> table_mirror (delete_line_by_id lid s).
Proof.
  intros [M1 M2]. unfold delete_line_by_id.
  destruct (dict_mem lid (train_lines s)); [|split; assumption].
  split; [exact M1|].
  exact (update_line_table_mirror (set_train_lines (dict_del lid (train_lines s)) s)).
Qed.

Lemma delete_station_mirror (selected : option nat) (s : state) :
  ids_ok s -> table_mirror s -> table_mirror (fst (delete_station selected s)).
Proof.
  intros (N1 & _) [M1 M2]. unfold delete_station.
  destruct selected as [row|]; [|split; assumption].
  rewrite (mirrors_row_id _ _ row M1).
  destruct (nth_error (keys (stations s)) row) as [sid|] eqn:E; [|split; assumption].
  cbv zeta. set (s1 := set_station_table _ s).
  set (s2 := if dict_mem sid (stations s1) then _ else s1).
  assert (Hst : stations s2 = dict_del sid (stations s)).
  { subst s2. destruct (dict_mem sid (stations s1)) eqn:M; [reflexivity|].
    cbn in *. now rewrite dict_del_absent. }
  assert (Htab : station_table s2 = removeRow row (station_table s)).
  { subst s2. now destruct (dict_mem sid (stations s1)). }
  destruct (unlink_station sid (stations s2) (train_lines s2)) as [lns to_remove].
  set (s3 := set_train_lines lns s2).
  set (s4 := fold_left (fun s lid => delete_line_by_id lid s) to_remove s3).
  assert (H4 : stations s4 = stations s3 /\ station_table s4 = station_table s3).
  { subst s4. apply (fold_left_inv
                       (fun s0 => stations s0 = stations s3
                                  /\ station_table s0 = station_table s3)).
    - intros lid s0 [A B]. unfold delete_line_by_id.
      destruct (dict_mem lid (train_lines s0)); fields; auto.
    - split; reflexivity. }
  destruct H4 as [A B]. cbn [fst]. split.
  - unfold mirrors in *. fields.
    rewrite A, B. subst s3. fields.
    rewrite Hst, Htab, id_column_removeRow, M1, list_drop_map.
    now rewrite (keys_dict_del_at _ row sid N1 E).
  - exact (update_line_table_mirror s4).
Qed.

Lemma add_line_mirror (dialog : option (list Z)) (c : rgb) (s : state) :
  table_mirror s -> table_mirror (fst (add_line dialog c s)).
Proof.
  intros [M1 M2]. unfold add_line. repeat break_match; cbn [fst]; try (split; assumption).
  split; [exact M1|].
  match goal with |- context [update_line_table ?x] =>
    exact (update_line_table_mirror x) end.
Qed.

Lemma edit_line_mirror (selected : option nat) (dialog : option (list Z)) (s : state) :
  table_mirror s -> table_mirror (fst (edit_line selected dialog s)).
Proof.
  intros [M1 M2]. unfold edit_line. repeat break_match; cbn [fst]; try (split; assumption).
  split; [exact M1|].
  match goal with |- context [update_line_table ?x] =>
    exact (update_line_table_mirror x) end.
Qed.

Lemma delete_line_mirror (selected : option nat) (s : state) :
  table_mirror s -> table_mirror (fst (delete_line selected s)).
Proof.
  intros M. unfold delete_line. repeat break_match; cbn [fst]; try assumption.
  now apply delete_line_by_id_mirror.
Qed.

Lemma line_cell_changed_mirror (row column : nat) (s : state) :
  table_mirror s -> table_mirror (fst (line_cell_changed row column s)).
Proof.
  intros [M1 M2]. unfold line_cell_changed.
  destruct (negb _); [split; assumption|].
  destruct (bind _ _) as [[lid new_ids]|]; [|split; assumption].
  destruct (_ <? _)%nat;
    [split; [exact M1 | exact (update_line_table_mirror s)]|].
  destruct (dict_get lid (train_lines s)) as [ln|] eqn:E; [|split; assumption].
  cbv zeta. unfold update_line_actor.
  cbn [train_lines set_train_lines]. rewrite dict_get_set_same.
  cbn [fst]. split; [exact M1|]. unfold mirrors in *. fields.
  rewrite !keys_dict_set_mem; [exact M2 | eapply dict_get_key; eauto |].
  rewrite keys_dict_set_mem; eapply dict_get_key; eauto.
Qed.

Lemma handle_mirror (e : event) (s : state) :
  ids_ok s -> table_mirror s -> table_mirror (step s e).
Proof.
  intros Hok M. unfold step, handle. destruct e.
  - now apply point_picked_mirror.
  - destruct (Nat.eqb_spec column 0) as [->|Hc]; [exact M|].
    apply station_cell_changed_mirror. destruct M as [M1 M2]. split; [|exact M2].
    unfold mirrors in *. fields. unfold type_into. now rewrite id_column_setItem.
  - now apply delete_station_mirror.
  - now apply add_line_mirror.
  - now apply edit_line_mirror.
  - now apply delete_line_mirror.
  - destruct (Nat.eqb_spec column 0) as [->|Hc]; [exact M|].
    apply line_cell_changed_mirror. destruct M as [M1 M2]. split; [exact M1|].
    unfold mirrors in *. fields. unfold type_into. now rewrite id_column_setItem.
Qed.

(** In every state of a session the ids are in order and the tables show
    them. *)
Lemma run_mirror (es : list event) (loaded : option surface) :
  ids_ok (run es (init loaded)) /\ table_mirror (run es (init loaded)).
Proof.
  unfold run.
  apply (fold_left_inv (fun s => ids_ok s /\ table_mirror s)).
  - intros e s [Hok M]. split.
    + eapply ids_ok_step; [exact Hok | apply handle_ids].
    + now apply handle_mirror.
  - split; [apply ids_ok_init | split; reflexivity].
Qed.

End MountainTables.

(** ** [src/mountain.py]: what holds in every state of a session *)

Section MountainSession.

Context {FT : FloatText}.

Import Mountain.















(** X1: in every state a session of [src/mountain.py] can reach, the first
    column of the station table lists the ids of [self.stations] and the
    first column of the line table lists the ids of [self.train_lines], one
    row per entry and in the order of the registry. *)
Theorem mountain_tables_show_ids (es : list event) (loaded : option surface) :
  table_mirror (run es (init loaded)).
Proof. apply run_mirror. Qed.


(** X3: in every state a session of [src/mountain.py] can reach,
    [delete_line] on a row of the line table removes from
    [self.train_lines] exactly the entry standing at that position and
    leaves the stations alone; on a row the table does not have it raises
    [AttributeError] and changes nothing. *)
Theorem delete_line_selected_row (es : list event) (loaded : option surface)
        (row : nat) :
  let s := run es (init loaded) in
  let r := delete_line (Some row) s in
  match nth_error (keys (train_lines s)) row with
  | Some lid =>
      snd r = Done
      /\ train_lines (fst r) = dict_del lid (train_lines s)
      /\ keys (train_lines (fst r)) = list_drop row (keys (train_lines s))
      /\ stations (fst r) = stations s
      /\ station_table (fst r) = station_table s
  | None => r = (s, Raised AttributeError)
  end.
Proof.
  cbv zeta. destruct (run_mirror es loaded) as [(_ & N2 & _) [_ M2]].
  pose proof (mirrors_row_id _ _ row M2) as Hid. unfold delete_line. rewrite Hid.
  destruct (nth_error (keys (train_lines (run es (init loaded)))) row) as [lid|] eqn:E;
    [|reflexivity].
  cbn [fst snd]. destruct (delete_line_by_id_lines lid (run es (init loaded))) as [A B].
  split; [reflexivity|]. split; [exact A|]. rewrite A. split; [|split].
  - now apply keys_dict_del_at.
  - exact B.
  - unfold delete_line_by_id. now destruct (dict_mem _ _).
Qed.



End MountainSession.



(** ** Lists written into a cell and read back *)

Section CellLists.

Lemma split_cons (c : ascii) (r : string) :
  Ascii.eqb c "," = false ->
  Py.split "," (String c r)
  = match Py.split "," r with
    | h :: t => String c h :: t
    | [] => [String c EmptyString]
    end.
Proof. intros H. cbn [Py.split]. now rewrite H. Qed.

Lemma split_app (x r : string) :
  no_comma x = true -> Py.split "," (x ++ String "," r) = x :: Py.split "," r.
Proof.
  unfold no_comma. induction x as [|c x IH]; cbn [append Py.all_chars]; intros H.
  - reflexivity.
  - apply andb_true_iff in H as [Hc Hx]. apply negb_true_iff in Hc.
    rewrite split_cons by exact Hc. now rewrite (IH Hx).
Qed.

Lemma split_join (parts : list string) :
  Forall (fun p => no_comma p = true) parts ->
  Py.split "," (Py.join ", " parts)
  = match parts with
    | [] => [EmptyString]
    | p :: ps => p :: map (String " ") ps
    end.
Proof.
  unfold Py.join. induction parts as [|p ps IH]; intros H; [reflexivity|].
  inversion H as [|? ? Hp Hps]; subst. specialize (IH Hps).
  destruct ps as [|q ps].
  - cbn [String.concat map]. now apply split_no_sep.
  - change (String.concat ", " (p :: q :: ps))
      with (p ++ String "," (String " " (String.concat ", " (q :: ps)))).
    rewrite split_app by exact Hp. rewrite split_cons by reflexivity.
    rewrite IH. reflexivity.
Qed.

Lemma strip_after_blank (s : string) : Py.strip (String " " s) = Py.strip s.
Proof. reflexivity. Qed.

Lemma digits_not_comma (s : string) :
  Py.all_chars Py.is_digit s = true -> no_comma s = true.
Proof.
  apply all_chars_impl. intros c.
  destruct c as [[] [] [] [] [] [] [] []]; vm_compute; congruence.
Qed.

Lemma digits_onto_truthy (fuel : nat) (n : Z) (acc : string) :
  Py.truthy (Py.digits_onto Py.dec_digit 10 fuel n acc) = true.
Proof.
  revert n acc. induction fuel as [|fuel IH]; intros n acc; cbn [Py.digits_onto].
  - reflexivity.
  - destruct (n / 10 =? 0); [reflexivity | apply IH].
Qed.

(** The text of an id: no comma, no blank, all digits exactly when the id
    is not negative. *)
Lemma str_shape (n : Z) :
  no_comma (Py.str n) = true
  /\ Py.strip (Py.str n) = Py.str n
  /\ Py.isdigit (Py.str n) = (0 <=? n).
Proof.
  unfold Py.str. destruct (Z.ltb_spec n 0) as [Hneg|Hpos].
  - destruct (nat_digits_read (- n)) as [Hd _]; [lia|].
    split; [|split].
    + unfold no_comma. cbn [Py.all_chars].
      change (negb (Ascii.eqb "-" ",")) with true. cbn [andb].
      now apply digits_not_comma.
    + apply strip_no_blank. cbn [Py.all_chars].
      change (negb (Py.is_space "-")) with true. cbn [andb].
      now apply digits_no_blank.
    + destruct (Z.leb_spec 0 n); [lia|]. reflexivity.
  - destruct (nat_digits_read n Hpos) as [Hd _].
    split; [|split].
    + now apply digits_not_comma.
    + apply strip_no_blank. now apply digits_no_blank.
    + destruct (Z.leb_spec 0 n); [|lia]. unfold Py.isdigit. rewrite Hd.
      unfold Py.nat_digits. now rewrite digits_onto_truthy.
Qed.

Lemma digit_entries_of (texts : list string) (ids : list Z) :
  Forall2 (fun x i => Py.strip x = Py.str i) texts ids ->
  map_result (fun x => Py.int10 (Py.strip x))
             (filter (fun x => Py.isdigit (Py.strip x)) texts)
  = Ok (filter (Z.leb 0) ids).
Proof.
  induction 1 as [|x i texts ids Hx _ IH]; [reflexivity|].
  cbn [filter]. rewrite Hx. destruct (str_shape i) as (_ & _ & ->).
  destruct (0 <=? i); [|exact IH].
  cbn [map_result]. rewrite Hx, int10_str, IH. reflexivity.
Qed.

(** X6: the id list that [update_line_table] of [src/mountain.py] writes
    into the second cell of a line's row (the ids joined by a comma and a
    blank) is read back by [line_cell_changed] as the same ids in the same
    order, negative ids apart, which it drops as not being digits. *)
Theorem id_list_cell_round_trip (ids : list Z) :
  Mountain.digit_entries (Py.join ", " (map Py.str ids)) = Ok (filter (Z.leb 0) ids).
Proof.
  unfold Mountain.digit_entries. rewrite split_join.
  - destruct ids as [|i ids]; [reflexivity|]. cbn [map].
    apply digit_entries_of. constructor.
    + apply (str_shape i).
    + induction ids as [|j ids IH]; cbn [map]; constructor; [|exact IH].
      rewrite strip_after_blank. apply (str_shape j).
  - apply Forall_forall. intros p Hp. apply in_map_iff in Hp as (i & <- & _).
    apply (str_shape i).
Qed.

End CellLists.

(** ** Colours: from text to channels and back *)

Section HexText.

Local Open Scope Q_scope.

(** An upper-case hex digit is the digit written for its value. *)
Lemma upper_hex_val (a : ascii) :
  upper_hex a = true ->
  exists v, Py.hex_val a = Some v /\ (0 <= v < 16)%Z /\ Py.hex_digit v = a.
Proof.
  intros H.
  assert (C : (if upper_hex a
               then match Py.hex_val a with
                    | Some v => (0 <=? v)%Z && (v <? 16)%Z && Ascii.eqb (Py.hex_digit v) a
                    | None => false
                    end
               else true) = true)
    by (destruct a as [[] [] [] [] [] [] [] []]; vm_compute; reflexivity).
  rewrite H in C. destruct (Py.hex_val a) as [v|]; [|discriminate].
  apply andb_true_iff in C as [C E]. apply andb_true_iff in C as [L U].
  apply Ascii.eqb_eq in E. exists v. split; [reflexivity|]. split; [lia | exact E].
Qed.

Lemma int_of_float_channel (n : Z) : Py.int_of_float (channel n * 255) = n.
Proof.
  unfold Py.int_of_float, channel. cbn [Qnum Qden Qmult Qdiv Qinv inject_Z].
  cbn. rewrite Z.mul_1_r. apply Z.quot_mul. discriminate.
Qed.

(** Two upper-case hex digits are read as a byte that is written back as
    the same two digits. *)
Lemma hex_pair_round_trip (a b : ascii) :
  upper_hex a = true -> upper_hex b = true ->
  exists n, Py.int16 (String a (String b "")) = Ok n
            /\ Py.format_02X (Py.int_of_float (channel n * 255)) = String a (String b "").
Proof.
  intros Ha Hb.
  destruct (upper_hex_val a Ha) as (va & Va & Ra & Da).
  destruct (upper_hex_val b Hb) as (vb & Vb & Rb & Db).
  exists (16 * va + vb)%Z. split; [now apply int16_two_hex|].
  rewrite int_of_float_channel.
  assert (Hn : (0 <= 16 * va + vb <= 255)%Z) by lia.
  pose proof (byte_checked _ Hn) as H. unfold byte_check in H. cbv zeta in H.
  replace ((16 * va + vb) / 16)%Z with va in H
    by (apply Z.div_unique with vb; lia).
  replace ((16 * va + vb) mod 16)%Z with vb in H
    by (apply Z.mod_unique with va; lia).
  rewrite Da, Db in H.
  apply andb_true_iff in H as [H _]. apply andb_true_iff in H as [H _].
  apply andb_true_iff in H as [H _]. now apply String.eqb_eq in H.
Qed.

End HexText.

(** X7: a colour text of the shape [#RRGGBB] with upper-case digits, as
    the colour cell of a line's row holds it, is read by [hex_to_rgb] as a
    colour that [rgb_to_hex] writes back as the same text. *)
Theorem hex_text_round_trip (h : string) :
  is_RRGGBB h = true ->
  exists c, hex_to_rgb h = Ok c /\ rgb_to_hex c = h.
Proof.
  unfold is_RRGGBB. destruct h as [|x rest]; [discriminate|].
  intros H. apply andb_true_iff in H as [H Hall]. apply andb_true_iff in H as [Hx Hlen].
  apply Ascii.eqb_eq in Hx. subst x. apply Nat.eqb_eq in Hlen.
  destruct rest as [|a1 [|a2 [|b1 [|b2 [|c1 [|c2 [|? ?]]]]]]]; try discriminate.
  cbn [Py.all_chars] in Hall.
  repeat match goal with
         | H : (_ && _)%bool = true |- _ => apply andb_true_iff in H as [? H]
         end.
  destruct (hex_pair_round_trip a1 a2) as (r & Er & Fr); try assumption.
  destruct (hex_pair_round_trip b1 b2) as (g & Eg & Fg); try assumption.
  destruct (hex_pair_round_trip c1 c2) as (b & Eb & Fb); try assumption.
  exists (channel r, channel g, channel b). split.
  - rewrite (hex_to_rgb_six a1 a2 b1 b2 c1 c2 _ eq_refl).
    + rewrite Er, Eg, Eb. reflexivity.
    + unfold Py.lstrip_char. cbn [Py.lstrip_by].
      change (Ascii.eqb "#" "#") with true. cbv iota.
      rewrite (upper_hex_not_hash a1) by assumption. reflexivity.
  - unfold rgb_to_hex. rewrite Fr, Fg, Fb. reflexivity.
Qed.

Lemma hex_text_round_trip_witness :
  is_RRGGBB "#FF8000" = true
  /\ exists c, hex_to_rgb "#FF8000" = Ok c /\ rgb_to_hex c = "#FF8000".
Proof.
  split; [reflexivity|]. apply hex_text_round_trip. reflexivity.
Defined.

(** ** [src/gui.py]: station names written into a cell and read back *)

Section Names.
















End Names.



(** ** [src/gui.py]: the registries and the tables *)

Section GuiSession.

Context {FT : FloatText}.

Import Gui.

Lemma counts_fresh {V : Type} (d : dict V) (n : Z) : counts (d, n) -> ~ In n (keys d).
Proof.
  intros [Hn Hl]. cbn in Hn, Hl. rewrite Hn, Hl.
  intros Hin. apply in_map_iff in Hin as (m & Hm & Hin). apply in_seq in Hin. lia.
Qed.

Lemma refresh_stations_row_spec (t : table) (row : nat) (sts : dict station) (n : Z) :
  refresh_stations_row t row (sts, n)
  = match row_station t row with
    | Some st => (dict_set n st sts, n + 1)
    | None => (sts, n)
    end.
Proof. unfold refresh_stations_row, row_station. repeat break_match; reflexivity. Qed.

Lemma fold_rows_stations (t : table) (rows : list nat) (acc : dict station * Z) :
  counts acc ->
  values (fst (fold_left (fun acc row => refresh_stations_row t row acc) rows acc))
  = (values (fst acc)
       ++ flat_map (fun row => match row_station t row with
                               | Some st => [st]
                               | None => []
                               end) rows)%list.
Proof.
  revert acc. induction rows as [|row rows IH]; intros [sts n] Hc; cbn [fold_left flat_map].
  - now rewrite app_nil_r.
  - rewrite refresh_stations_row_spec.
    destruct (row_station t row) as [st|] eqn:E.
    + rewrite IH by (now apply counts_next). cbn [fst].
      rewrite dict_set_fresh by (now apply counts_fresh).
      unfold values. rewrite map_app. cbn [map snd]. now rewrite <- app_assoc.
    + now rewrite IH.
Qed.

Lemma refresh_stations_values (s : state) :
  values (stations (refresh_stations_on_plot s)) = station_rows (station_table s).
Proof.
  unfold refresh_stations_on_plot, station_rows. cbn [stations set_stations].
  rewrite fold_rows_stations by (split; reflexivity). reflexivity.
Qed.

(** X9: [refresh_stations_on_plot] of [src/gui.py] rebuilds the stations
    registry from the station table alone: the rows whose four cells are
    set and whose three coordinates are numbers become the stations, in row
    order, numbered from 1; every other row is passed over. *)
Theorem refresh_stations_from_rows (s : state) :
  values (stations (refresh_stations_on_plot s)) = station_rows (station_table s)
  /\ keys (stations (refresh_stations_on_plot s))
     = map Z.of_nat (seq 1 (List.length (station_rows (station_table s)))).
Proof.
  pose proof (refresh_stations_values s) as V.
  split; [exact V|].
  destruct (refresh_stations_numbered s) as [N _]. unfold numbered in N.
  rewrite N. rewrite <- V. unfold values. now rewrite length_map.
Qed.

(** X10: in every state a session of [src/gui.py] can reach, every line
    of the registry is the line of a row of the line table as it stands: its
    name and station names are those of the row, at least two of the names
    are names of current stations, and its curve runs through the
    coordinates those names resolve to. *)
Theorem gui_lines_stand_for_rows (es : list event) (loaded : option surface)
        (id : Z) (ln : line) :
  let s := run es (init loaded) in
  In (id, ln) (lines s) -> from_row (line_table s) (stations s) ln.
Proof.
  cbv zeta. intros Hin.
  pose proof (run_up_to_date es loaded) as H. unfold up_to_date in H.
  rewrite refresh_lines_on_plot_loop in H. cbn [fst lines set_lines] in H.
  rewrite H in Hin. exact (lines_loop_from_rows _ _ _ Hin).
Qed.

(** X11: [load_new_dem] of [src/gui.py] looks no elevation up again:
    whatever surface is loaded, both tables stay as they are and the
    registries are those a refresh of the unchanged tables gives, so every
    station keeps the z its row shows. *)
Theorem load_new_dem_keeps_z (d : surface) (s : state) :
  let s' := fst (load_new_dem (Some (Ok d)) s) in
  station_table s' = station_table s
  /\ line_table s' = line_table s
  /\ stations s' = stations (fst (refresh_both s))
  /\ lines s' = lines (fst (refresh_both s))
  /\ values (stations s') = station_rows (station_table s).
Proof.
  cbv zeta. unfold load_new_dem, refresh_both.
  rewrite !refresh_lines_on_plot_loop.
  change (line_table (refresh_stations_on_plot (set_dem (Some d) s)))
    with (line_table s).
  change (stations (refresh_stations_on_plot (set_dem (Some d) s)))
    with (stations (refresh_stations_on_plot s)).
  change (line_table (refresh_stations_on_plot s)) with (line_table s).
  destruct (snd (lines_loop (line_table s) (stations (refresh_stations_on_plot s))));
    cbn [fst]; repeat split; apply (refresh_stations_values s).
Qed.

End GuiSession.

Lemma gui_lines_stand_for_rows_witness :
  exists id ln,
    In (id, ln) (Gui.lines demo_gui)
    /\ from_row (Gui.line_table demo_gui) (Gui.stations demo_gui) ln.
Proof.
  unfold demo_gui.
  set (es := [Gui.Pick (Some p1); Gui.Pick (Some p2); Gui.Pick (Some p3);
              Gui.AddLine (Some {| Gui.name_edit := "L1";
                                   Gui.selected_list :=
                                     ["Station 1"; "Station 2"; "Station 3"];
                                   Gui.selected_color := red |})]).
  destruct (Gui.lines (Gui.run (FT := Plain.text) es (Gui.init (Some demo_surface))))
    as [|[id ln] rest] eqn:E; [vm_compute in E; discriminate|].
  exists id, ln. split; [now left|].
  apply (gui_lines_stand_for_rows (FT := Plain.text) es (Some demo_surface) id ln).
  rewrite E. now left.
Defined.

(** ** The loaded surface and its lookups *)

Section Dem.

Local Open Scope Q_scope.

Lemma length_linspace (start stop : Q) (num : nat) :
  List.length (linspace start stop num) = num.
Proof.
  destruct num as [|[|div]]; cbn [linspace]; try reflexivity.
  rewrite length_app, length_map, length_seq. cbn [List.length]. lia.
Qed.

Lemma nth_linspace (start stop : Q) (div k : nat) :
  nth_error (linspace start stop (S (S div))) k
  = if (k <? S div)%nat
    then Some (inject_Z (Z.of_nat k) * ((stop - start) / inject_Z (Z.of_nat (S div)))
               + start)
    else if (k =? S div)%nat then Some stop else None.
Proof.
  cbn [linspace]. set (f := fun i : nat => _).
  destruct (Nat.ltb_spec k (S div)) as [Hlt|Hge].
  - rewrite nth_error_app1 by (rewrite length_map, length_seq; exact Hlt).
    rewrite nth_error_map, nth_error_seq.
    destruct (Nat.ltb_spec k (S div)); [reflexivity | lia].
  - rewrite nth_error_app2 by (rewrite length_map, length_seq; exact Hge).
    rewrite length_map, length_seq.
    destruct (Nat.eqb_spec k (S div)) as [->|Hne].
    + now rewrite Nat.sub_diag.
    + destruct (k - S div)%nat as [|m] eqn:E; [lia|]. cbn. now destruct m.
Qed.

Lemma inject_nat_lt (a b : nat) : (a < b)%nat -> inject_Z (Z.of_nat a) < inject_Z (Z.of_nat b).
Proof. intros H. rewrite <- Zlt_Qlt. lia. Qed.

Lemma linspace_ascending (start stop : Q) (num : nat) :
  start < stop -> ascending (linspace start stop num).
Proof.
  intros Hlt a b va vb Hab Ha Hb.
  destruct num as [|[|div]].
  - destruct a; discriminate.
  - destruct b as [|b]; [lia|]. destruct b; discriminate.
  - rewrite nth_linspace in Ha, Hb.
    set (d := inject_Z (Z.of_nat (S div))) in *.
    assert (Hd : 0 < d) by (apply (inject_nat_lt 0 (S div)); lia).
    set (step := (stop - start) / d) in *.
    assert (Hstep : 0 < step).
    { unfold step, Qdiv. apply Qmult_lt_0_compat; [lra|]. now apply Qinv_lt_0_compat. }
    assert (Hfull : d * step == stop - start).
    { unfold step. field. intros E. rewrite E in Hd. now apply Qlt_irrefl in Hd. }
    destruct (Nat.ltb_spec a (S div)) as [La|La];
      [|destruct (Nat.eqb_spec a (S div)); [|discriminate];
        destruct (Nat.ltb_spec b (S div)); [lia|];
        destruct (Nat.eqb_spec b (S div)); [lia | discriminate]].
    injection Ha as <-.
    destruct (Nat.ltb_spec b (S div)) as [Lb|Lb].
    + injection Hb as <-. pose proof (inject_nat_lt a b Hab). nra.
    + destruct (Nat.eqb_spec b (S div)); [|discriminate]. injection Hb as <-.
      pose proof (inject_nat_lt a (S div) La) as H. fold d in H. nra.
Qed.

(** The scan finds an entry that is smaller than every other one. *)
Lemma argmin_unique (l : list Q) (i : nat) (v : Q) :
  nth_error l i = Some v ->
  (forall k w, k <> i -> nth_error l k = Some w -> v < w) ->
  argmin l = Ok i.
Proof.
  intros Hi Hmin. destruct (argmin_first_min l) as (i' & v' & E & Hat & Hle & _).
  - intros ->. destruct i; discriminate.
  - rewrite E. f_equal. destruct (Nat.eq_dec i' i) as [|Hne]; [assumption|].
    exfalso. specialize (Hmin i' v' Hne Hat). specialize (Hle i v Hi). lra.
Qed.


(** On ascending samples the nearest index of a sample is its own, and
    of a value beyond either end the index of that end. *)
Lemma argmin_at_sample (samples : list Q) (i : nat) (c : Q) :
  ascending samples -> nth_error samples i = Some c ->
  argmin (abs_diff samples c) = Ok i.
Proof.
  intros Hasc Hi. apply (argmin_unique _ i (Qabs (c - c))).
  - unfold abs_diff. now rewrite nth_error_map, Hi.
  - intros k w Hk Hw. unfold abs_diff in Hw. rewrite nth_error_map in Hw.
    destruct (nth_error samples k) as [c'|] eqn:Ek; [|discriminate].
    injection Hw as <-.
    assert (E : c - c == 0) by ring. rewrite E. cbn [Qabs Z.abs Qnum].
    assert (Hne : ~ c' == c).
    { destruct (Nat.lt_total k i) as [H|[H|H]]; [| contradiction |].
      - pose proof (Hasc k i c' c H Ek Hi). lra.
      - pose proof (Hasc i k c c' H Hi Ek). lra. }
    destruct (Qlt_le_dec 0 (Qabs (c' - c))) as [|Hle]; [assumption|].
    exfalso. apply Hne. apply Qabs_Qle_condition in Hle. lra.
Qed.





Lemma plot_dem_grid_ok (data : list (list Q)) (bounds : Q * Q * Q * Q) :
  is_array data ->
  grid_ok (plot_dem_in_pyvista data bounds)
  /\ x_coords (plot_dem_in_pyvista data bounds) <> []
  /\ y_coords (plot_dem_in_pyvista data bounds) <> []
  /\ dem_data (plot_dem_in_pyvista data bounds) = data.
Proof.
  intros (Hx & Hy & Hrect). destruct bounds as [[[b0 b1] b2] b3].
  unfold plot_dem_in_pyvista, shape in *. cbn [fst snd] in *.
  cbn [x_coords y_coords dem_data]. unfold grid_ok. cbn [x_coords y_coords dem_data].
  rewrite !length_linspace. repeat split.
  - exact Hrect.
  - intros E. apply (f_equal (@List.length Q)) in E. rewrite length_linspace in E.
    cbn in E. lia.
  - intros E. apply (f_equal (@List.length Q)) in E. rewrite length_linspace in E.
    cbn in E. lia.
Qed.

End Dem.

(** X12: once [plot_dem_in_pyvista] has loaded an array (not empty, every
    row of the same non-zero length), [get_elevation] of either variant
    raises nothing, wherever it is asked: it returns an entry of the
    array. *)
Theorem loaded_dem_lookup_total (data : list (list Q)) (bounds : Q * Q * Q * Q)
        (x y : Q) (sg : Gui.state) (sm : Mountain.state) :
  is_array data ->
  Gui.dem sg = Some (plot_dem_in_pyvista data bounds) ->
  Mountain.dem sm = Some (plot_dem_in_pyvista data bounds) ->
  exists i j row z,
    nth_error data i = Some row /\ nth_error row j = Some z
    /\ Gui.get_elevation sg x y = Ok z
    /\ Mountain.get_elevation sm x y = Ok z.
Proof.
  intros Harr Hg Hm.
  destruct (plot_dem_grid_ok data bounds Harr) as (Hok & Hx & Hy & Hd).
  set (d := plot_dem_in_pyvista data bounds) in *.
  destruct (argmin_nearest (x_coords d) x Hx) as (i & Ei & (ci & Hci & _)).
  destruct (argmin_nearest (y_coords d) y Hy) as (j & Ej & (cj & Hcj & _)).
  destruct (index2_in_grid d i j Hok) as [z Ez];
    [apply nth_error_Some; congruence | apply nth_error_Some; congruence |].
  rewrite Hd in Ez. unfold index2 in Ez.
  destruct (nth_error data i) as [row|] eqn:Er; [|discriminate].
  destruct (nth_error row j) as [z'|] eqn:Ec; [|discriminate].
  injection Ez as ->. exists i, j, row, z. split; [exact Er|]. split; [exact Ec|].
  unfold Gui.get_elevation, Mountain.get_elevation. rewrite Hg, Hm, Ei, Ej.
  cbn [bind]. rewrite Hd. unfold index2. rewrite Er, Ec. split; reflexivity.
Qed.

Lemma loaded_dem_lookup_total_witness :
  is_array (dem_data demo_surface)
  /\ exists i j row z,
       nth_error (dem_data demo_surface) i = Some row /\ nth_error row j = Some z
       /\ Gui.get_elevation
            (Gui.init (Some (plot_dem_in_pyvista (dem_data demo_surface)
                                                 (0, 0, 100000, 100000)%Q)))
            (70000 # 1) (20000 # 1) = Ok z
       /\ Mountain.get_elevation
            (Mountain.init (Some (plot_dem_in_pyvista (dem_data demo_surface)
                                                      (0, 0, 100000, 100000)%Q)))
            (70000 # 1) (20000 # 1) = Ok z.
Proof.
  assert (A : is_array (dem_data demo_surface)).
  { split; [cbn; lia|]. split; [cbn; lia|]. repeat constructor. }
  split; [exact A|].
  apply (loaded_dem_lookup_total (dem_data demo_surface) (0, 0, 100000, 100000)%Q
           (70000 # 1) (20000 # 1)
           (Gui.init (Some (plot_dem_in_pyvista (dem_data demo_surface)
                                                (0, 0, 100000, 100000)%Q)))
           (Mountain.init (Some (plot_dem_in_pyvista (dem_data demo_surface)
                                                     (0, 0, 100000, 100000)%Q))));
    [exact A | reflexivity..].
Defined.

(** X13: with a surface loaded by [plot_dem_in_pyvista] over boundaries of
    positive width and height, [get_elevation] asked at the sample point
    [(x_coords[i], y_coords[j])] returns exactly [data[i, j]], in either
    variant. *)
Theorem dem_node_lookup (data : list (list Q)) (b0 b1 b2 b3 : Q) (i j : nat) (x y : Q)
        (sg : Gui.state) (sm : Mountain.state) :
  let d := plot_dem_in_pyvista data (b0, b1, b2, b3) in
  (b0 < b2)%Q -> (b1 < b3)%Q ->
  Gui.dem sg = Some d -> Mountain.dem sm = Some d ->
  nth_error (x_coords d) i = Some x -> nth_error (y_coords d) j = Some y ->
  Gui.get_elevation sg x y = index2 data i j
  /\ Mountain.get_elevation sm x y = index2 data i j.
Proof.
  cbv zeta. intros Hw Hh Hg Hm Hx Hy.
  unfold Gui.get_elevation, Mountain.get_elevation. rewrite Hg, Hm.
  unfold plot_dem_in_pyvista in *. destruct (shape data) as [nx ny].
  cbn [x_coords y_coords dem_data] in *.
  rewrite (argmin_at_sample _ i x) by (auto; apply linspace_ascending; lra).
  rewrite (argmin_at_sample _ j y) by (auto; apply linspace_ascending; lra).
  split; reflexivity.
Qed.

Lemma dem_node_lookup_witness :
  let d := plot_dem_in_pyvista (dem_data demo_surface) (0, 0, 100000, 100000)%Q in
  (0 < 100000)%Q
  /\ nth_error (x_coords d) 1 = Some (1 * ((100000 - 0 - 0) / 2) + 0)%Q
  /\ nth_error (y_coords d) 1 = Some (100000 - 0)%Q
  /\ Gui.get_elevation (Gui.init (Some d)) (1 * ((100000 - 0 - 0) / 2) + 0)%Q
                       (100000 - 0)%Q = Ok 4%Q
  /\ Mountain.get_elevation (Mountain.init (Some d)) (1 * ((100000 - 0 - 0) / 2) + 0)%Q
                            (100000 - 0)%Q = Ok 4%Q.
Proof.
  cbv zeta. split; [reflexivity|]. split; [reflexivity|]. split; [reflexivity|].
  apply (dem_node_lookup (dem_data demo_surface) 0 0 100000 100000 1 1
           (1 * ((100000 - 0 - 0) / 2) + 0)%Q (100000 - 0)%Q
           (Gui.init (Some (plot_dem_in_pyvista (dem_data demo_surface)
                                                (0, 0, 100000, 100000)%Q)))
           (Mountain.init (Some (plot_dem_in_pyvista (dem_data demo_surface)
                                                     (0, 0, 100000, 100000)%Q))));
    reflexivity.
Defined.


